(** * Verification of the wind energy software metadata model

    The repository declares three pydantic (v2) models in
    [metadata_model.py]: [Author], [Distribution] and
    [WindEnergySoftwareMetadataDocument].  Their behaviour is the validation
    that pydantic derives from the field annotations when
    [WindEnergySoftwareMetadataDocument.model_validate(raw)] is called on a
    mapping, with the default model configuration (lax mode, [extra='ignore'],
    [frozen=False], [validate_assignment=False]).

    The embedding below writes that derived validator out:
    - raw input values are a small JSON/Python-like value type;
    - a Python dict is an association list, read with [lookup];
    - every field annotation becomes a field validator ([v_str],
      [v_literal], [v_date], [v_list], the nested model validators);
    - a model validator visits its fields in declaration order and collects
      the errors of all of them (pydantic reports every error, each with its
      location tuple and error type), which is written as an applicative
      combination [ap] of validation results. *)

From Stdlib Require Import String Ascii List ZArith Lia Bool Permutation.
Import ListNotations.
Open Scope string_scope.
Set Warnings "-register-all".
Open Scope list_scope.

(** ** Raw input values *)

(** A calendar date ([datetime.date]). *)
Record date := mkdate { year : Z; month : Z; day : Z }.

Inductive value :=
| VNone
| VBool (b : bool)
| VInt (z : Z)
| VStr (s : string)
| VDate (d : date)
| VList (l : list value)
| VDict (kv : list (string * value)).

(** A Python dict from field names to raw values. *)
Definition dict := list (string * value).

(** [d.get(k)]: the value of the first entry with key [k]. *)
Fixpoint lookup (k : string) (d : dict) : option value :=
  match d with
  | [] => None
  | (k', v) :: d' => if String.eqb k k' then Some v else lookup k d'
  end.

(** [d[k] = v]: replaces the entry of [k] in place, or appends it. *)
Fixpoint set_key (k : string) (v : value) (d : dict) : dict :=
  match d with
  | [] => [(k, v)]
  | (k', v') :: d' =>
      if String.eqb k k' then (k', v) :: d' else (k', v') :: set_key k v d'
  end.

(** ** Validation errors (pydantic's [ValidationError.errors()]) *)

(** An element of an error location tuple: a field name or a list index. *)
Inductive loc_item := LKey (k : string) | LIdx (i : nat).

(** The pydantic error types the declared annotations can produce. *)
Inductive err_kind :=
| Missing                          (* missing *)
| StringType                       (* string_type *)
| LiteralError (expected : list string)  (* literal_error, ctx expected *)
| ListType                         (* list_type *)
| ModelType                        (* model_type *)
| DateType                         (* date_type *)
| DateFromDatetimeParsing          (* date_from_datetime_parsing *)
| DateFromDatetimeInexact          (* date_from_datetime_inexact *)
| FrozenInstance                   (* frozen_instance *)
| NoSuchField.                     (* ValueError: object has no field *)

Record error := mkerr { loc : list loc_item; kind : err_kind }.

(** The outcome of a validation: a value or the list of all errors. *)
Inductive result (A : Type) := Ok (a : A) | Err (es : list error).
Arguments Ok {A} a.
Arguments Err {A} es.

Definition errs {A} (r : result A) : list error :=
  match r with Ok _ => [] | Err es => es end.

Definition rmap {A B} (f : A -> B) (r : result A) : result B :=
  match r with Ok a => Ok (f a) | Err es => Err es end.

(** Error-collecting application: both sides are always evaluated and the
    errors of both are reported, in order. *)
Definition ap {A B} (rf : result (A -> B)) (ra : result A) : result B :=
  match rf, ra with
  | Ok f, Ok a => Ok (f a)
  | Ok _, Err e => Err e
  | Err e, Ok _ => Err e
  | Err e1, Err e2 => Err (e1 ++ e2)
  end.

Infix "<*>" := ap (at level 50, left associativity).

(** Prefixes the locations of the errors of a nested validation. *)
Definition prefix_err (p : loc_item) (e : error) : error :=
  mkerr (p :: loc e) (kind e).

Definition prefix {A} (p : loc_item) (r : result A) : result A :=
  match r with Ok a => Ok a | Err es => Err (map (prefix_err p) es) end.

(** A failed validation reports at least one error. *)
Definition reports {A} (r : result A) : Prop := forall es, r = Err es -> es <> [].

Definition fail {A} (k : err_kind) : result A := Err [mkerr [] k].

(** ** Field validators, one per annotation *)

(** [str] (lax mode: only strings are accepted, numbers are not coerced). *)
Definition v_str (v : value) : result string :=
  match v with VStr s => Ok s | _ => fail StringType end.

(** [Literal[a, b, ...]] over strings: the value must equal one of them. *)
Definition v_literal (allowed : list string) (v : value) : result string :=
  match v with
  | VStr s => if existsb (String.eqb s) allowed then Ok s
              else fail (LiteralError allowed)
  | _ => fail (LiteralError allowed)
  end.

(** [X | None]: pydantic builds a nullable schema, [None] is accepted. *)
Definition v_nullable {A} (f : value -> result A) (v : value)
  : result (option A) :=
  match v with VNone => Ok None | _ => rmap Some (f v) end.

(** [list[X]]: every element is validated, errors carry the index. *)
Fixpoint v_items {A} (f : value -> result A) (i : nat) (l : list value)
  : result (list A) :=
  match l with
  | [] => Ok []
  | v :: l' => Ok (@cons A) <*> prefix (LIdx i) (f v) <*> v_items f (S i) l'
  end.

Definition v_list {A} (f : value -> result A) (v : value) : result (list A) :=
  match v with VList l => v_items f 0 l | _ => fail ListType end.

(** [datetime.date]. *)

Definition is_leap (y : Z) : bool :=
  (Z.eqb (Z.modulo y 4) 0 && negb (Z.eqb (Z.modulo y 100) 0))
  || Z.eqb (Z.modulo y 400) 0.

Definition days_in_month (y m : Z) : Z :=
  if Z.eqb m 2 then (if is_leap y then 29 else 28)
  else if existsb (Z.eqb m) [4; 6; 9; 11]%Z then 30 else 31.

Definition valid_date (d : date) : bool :=
  (1 <=? year d)%Z && (year d <=? 9999)%Z
  && (1 <=? month d)%Z && (month d <=? 12)%Z
  && (1 <=? day d)%Z && (day d <=? days_in_month (year d) (month d))%Z.

Definition digit (c : ascii) : option Z :=
  let n := nat_of_ascii c in
  if (48 <=? n)%nat && (n <=? 57)%nat then Some (Z.of_nat (n - 48)) else None.

Fixpoint digits (acc : Z) (cs : list ascii) : option Z :=
  match cs with
  | [] => Some acc
  | c :: cs' =>
      match digit c with Some n => digits (acc * 10 + n)%Z cs' | None => None end
  end.

(** [Date::parse_bytes_partial]: a [YYYY-MM-DD] prefix, with the month and
    the day in range; what follows the tenth character is not looked at. *)
Definition parse_date_prefix (cs : list ascii) : option date :=
  match cs with
  | y1 :: y2 :: y3 :: y4 :: s1 :: m1 :: m2 :: s2 :: d1 :: d2 :: _ =>
      if Ascii.eqb s1 "-" && Ascii.eqb s2 "-" then
        match digits 0 [y1; y2; y3; y4], digits 0 [m1; m2], digits 0 [d1; d2] with
        | Some y, Some m, Some d =>
            let dt := mkdate y m d in if valid_date dt then Some dt else None
        | _, _, _ => None
        end
      else None
  | _ => None
  end.

(** [Date::parse_bytes_rfc3339]: exactly the ISO 8601 calendar form
    [YYYY-MM-DD]. *)
Definition parse_iso_date (s : string) : option date :=
  let cs := list_ascii_of_string s in
  if (length cs =? 10)%nat then parse_date_prefix cs else None.

Definition i64_max : Z := 9223372036854775807.

(** [int_parse_bytes]: an optional [-] and decimal digits, within [i64]. *)
Definition int_parse (cs : list ascii) : option Z :=
  match cs with
  | [] => None
  | c :: rest =>
      let '(neg, ds) := if Ascii.eqb c "-" then (true, rest) else (false, cs) in
      match ds with
      | [] => None
      | _ :: _ =>
          match digits 0 ds with
          | Some n => if (n <=? i64_max)%Z then Some (if neg then (- n)%Z else n) else None
          | None => None
          end
      end
  end.

(** Days since 1970-01-01 to a civil date. *)
Definition civil_from_days (n : Z) : date :=
  let z := (n + 719468)%Z in
  let era := (z / 146097)%Z in
  let doe := (z - era * 146097)%Z in
  let yoe := ((doe - doe / 1460 + doe / 36524 - doe / 146096) / 365)%Z in
  let doy := (doe - (365 * yoe + yoe / 4 - yoe / 100))%Z in
  let mp := ((5 * doy + 2) / 153)%Z in
  let d := (doy - (153 * mp + 2) / 5 + 1)%Z in
  let m := if (mp <? 10)%Z then (mp + 3)%Z else (mp - 9)%Z in
  let y := (yoe + era * 400)%Z in
  mkdate (if (m <=? 2)%Z then y + 1 else y)%Z m d.

(** [timestamp_watershed]: a timestamp above 2e10 in magnitude is in
    milliseconds; the result is the seconds (floored) and the
    microseconds. *)
Definition timestamp_watershed (n : Z) : Z * Z :=
  if (Z.abs n <=? 20000000000)%Z then (n, 0%Z) else (n / 1000, (n mod 1000) * 1000)%Z.

(** Unix times of 1600-01-01 and 10000-01-01. *)
Definition unix_1600 : Z := -11676096000.
Definition unix_10000 : Z := 253402300800.

(** [Date::from_timestamp_calc]: only years 1600 to 9999. *)
Definition date_from_seconds (secs : Z) : option date :=
  if (secs <? unix_1600)%Z || (unix_10000 <=? secs)%Z then None
  else Some (civil_from_days (secs / 86400)).

(** [Date::from_timestamp(ts, true)]: the seconds must fall on a midnight
    (the microseconds are dropped). *)
Definition date_from_timestamp (n : Z) : option date :=
  let secs := fst (timestamp_watershed n) in
  match date_from_seconds secs with
  | Some d => if (secs mod 86400 =? 0)%Z then Some d else None
  | None => None
  end.

(** [DateTime::from_timestamp]: the date, and whether the time is
    midnight. *)
Definition datetime_from_timestamp (n : Z) : option (date * bool) :=
  let '(secs, micro) := timestamp_watershed n in
  match date_from_seconds secs with
  | Some d => Some (d, (secs mod 86400 =? 0)%Z && (micro =? 0)%Z)
  | None => None
  end.

(** [Date::parse_bytes]: an ISO date, failing that an integer timestamp
    falling on a midnight. *)
Definition parse_date (s : string) : option date :=
  match parse_iso_date s with
  | Some d => Some d
  | None =>
      match int_parse (list_ascii_of_string s) with
      | Some n => date_from_timestamp n
      | None => None
      end
  end.

(** The leading decimal digits of a character list, and the rest. *)
Fixpoint span_digits (cs : list ascii) : list ascii * list ascii :=
  match cs with
  | [] => ([], [])
  | c :: cs' =>
      match digit c with
      | Some _ => let '(ds, r) := span_digits cs' in (c :: ds, r)
      | None => ([], cs)
      end
  end.

(** The UTC offset ending a time: nothing, [Z], [z], or a sign ([+], [-]
    or U+2212 in UTF-8) with [HH:MM] or [HHMM]; nothing may follow it. *)
Definition parse_tz (cs : list ascii) : bool :=
  match cs with
  | [] => true
  | [c] => Ascii.eqb c "Z" || Ascii.eqb c "z"
  | c :: rest =>
      let after_sign :=
        if Ascii.eqb c "+" || Ascii.eqb c "-" then Some rest
        else match rest with
             | c1 :: c2 :: r =>
                 if (nat_of_ascii c =? 226)%nat && (nat_of_ascii c1 =? 136)%nat
                    && (nat_of_ascii c2 =? 146)%nat then Some r else None
             | _ => None
             end in
      match after_sign with
      | Some (h1 :: h2 :: r) =>
          let mins := match r with
                      | [c1; m1; m2] => if Ascii.eqb c1 ":" then Some (m1, m2) else None
                      | [m1; m2] => Some (m1, m2)
                      | _ => None
                      end in
          match digits 0 [h1; h2], mins with
          | Some h, Some (m1, m2) =>
              match digits 0 [m1; m2] with
              | Some m => (h <=? 23)%Z && (m <=? 59)%Z
              | None => false
              end
          | _, _ => false
          end
      | _ => false
      end
  end.

(** [Time::parse_bytes_offset]: [HH:MM], [HH:MM:SS] or [HH:MM:SS.f...] (a
    comma also starts the fraction, digits past the sixth are dropped),
    then the offset.  The result tells whether the time is midnight. *)
Definition parse_time (cs : list ascii) : option bool :=
  match cs with
  | h1 :: h2 :: c :: mi1 :: mi2 :: rest =>
      match digits 0 [h1; h2], digits 0 [mi1; mi2] with
      | Some h, Some mi =>
          if negb (Ascii.eqb c ":") || (23 <? h)%Z || (59 <? mi)%Z then None else
          let hm0 := (h =? 0)%Z && (mi =? 0)%Z in
          match rest with
          | c' :: s1 :: s2 :: rest' =>
              if Ascii.eqb c' ":" then
                match digits 0 [s1; s2] with
                | Some sec =>
                    if (59 <? sec)%Z then None else
                    match rest' with
                    | f :: rest'' =>
                        if Ascii.eqb f "." || Ascii.eqb f "," then
                          let '(ds, tz) := span_digits rest'' in
                          match ds with
                          | [] => None
                          | _ :: _ =>
                              if parse_tz tz
                              then Some (hm0 && (sec =? 0)%Z
                                         && forallb (Ascii.eqb "0") (firstn 6 ds))
                              else None
                          end
                        else if parse_tz rest' then Some (hm0 && (sec =? 0)%Z) else None
                    | [] => Some (hm0 && (sec =? 0)%Z)
                    end
                | None => None
                end
              else if parse_tz rest then Some hm0 else None
          | _ => if parse_tz rest then Some hm0 else None
          end
      | _, _ => None
      end
  | _ => None
  end.

(** [DateTime::parse_bytes_rfc3339]: a [YYYY-MM-DD] prefix, a [T], [t],
    space or [_] separator, and a time. *)
Definition parse_datetime_rfc3339 (cs : list ascii) : option (date * bool) :=
  match parse_date_prefix cs, skipn 10 cs with
  | Some d, sep :: rest =>
      if existsb (Ascii.eqb sep) ["T"; "t"; " "; "_"]%char
      then match parse_time rest with Some z => Some (d, z) | None => None end
      else None
  | _, _ => None
  end.

(** [DateTime::parse_bytes]: an RFC 3339 datetime, failing that an integer
    timestamp.  Fractional timestamps ("1709164800.5"), which speedate also
    reads, are not modelled: they are reported as parse errors here. *)
Definition parse_datetime (s : string) : option (date * bool) :=
  let cs := list_ascii_of_string s in
  match parse_datetime_rfc3339 cs with
  | Some r => Some r
  | None => match int_parse cs with Some n => datetime_from_timestamp n | None => None end
  end.

(** [date_from_datetime]: a datetime is accepted as a date when its time is
    midnight. *)
Definition date_from_datetime (r : option (date * bool)) : result date :=
  match r with
  | Some (d, true) => Ok d
  | Some (_, false) => fail DateFromDatetimeInexact
  | None => fail DateFromDatetimeParsing
  end.

(** Lax [date] validation (pydantic-core's date validator): a date object is
    taken as it is; a string is parsed as a date and, failing that, as a
    datetime falling on a midnight; an integer is not a date, so it goes
    through the datetime path as a Unix timestamp; anything else is a
    [date_type] error. *)
Definition v_date (v : value) : result date :=
  match v with
  | VDate d => Ok d
  | VStr s =>
      match parse_date s with
      | Some d => Ok d
      | None => date_from_datetime (parse_datetime s)
      end
  | VInt n => date_from_datetime (datetime_from_timestamp n)
  | _ => fail DateType
  end.

(** A required field [k: X] of a model, read from the input dict. *)
Definition field {A} (k : string) (f : value -> result A) (get : string -> option value)
  : result A :=
  match get k with
  | None => Err [mkerr [LKey k] Missing]
  | Some v => prefix (LKey k) (f v)
  end.

(** A field with a default [k: X = dflt]: the default is used, unvalidated,
    when the key is absent. *)
Definition field_default {A} (k : string) (dflt : A) (f : value -> result A)
  (get : string -> option value) : result A :=
  match get k with
  | None => Ok dflt
  | Some v => prefix (LKey k) (f v)
  end.

(** The lookup function of a dict. *)
Definition getter (d : dict) : string -> option value := fun k => lookup k d.

(** ** The models of [metadata_model.py] *)

(** [class Author(pdt.BaseModel)]. *)
Module Author.

Record t := mk { name : string; orcid : string; affiliation : string }.

Definition validate_fields (get : string -> option value) : result t :=
  Ok mk
    <*> field "name" v_str get
    <*> field "orcid" v_str get
    <*> field "affiliation" v_str get.

(** A nested model accepts a dict; anything else is a [model_type] error. *)
Definition validate (v : value) : result t :=
  match v with VDict kv => validate_fields (getter kv) | _ => fail ModelType end.

(** [model_dump()]. *)
Definition dump (a : t) : value :=
  VDict [("name", VStr (name a)); ("orcid", VStr (orcid a));
         ("affiliation", VStr (affiliation a))].

End Author.

(** [class Distribution(pdt.BaseModel)]. *)
Module Distribution.

Record t := mk { distribution_platform : string; url : string }.

Definition validate_fields (get : string -> option value) : result t :=
  Ok mk
    <*> field "distribution_platform" v_str get
    <*> field "url" v_str get.

Definition validate (v : value) : result t :=
  match v with VDict kv => validate_fields (getter kv) | _ => fail ModelType end.

Definition dump (d : t) : value :=
  VDict [("distribution_platform", VStr (distribution_platform d));
         ("url", VStr (url d))].

End Distribution.

(** [class WindEnergySoftwareMetadataDocument(pdt.BaseModel)]. *)
Module WindEnergySoftwareMetadataDocument.

Definition source_access_right_values := ["open"; "closed"].
Definition resource_type_values := ["software"].
Definition resource_subtype_values := ["model"; "analysis"; "optimisation"].
Definition time_domain_values := ["steady"; "dynamic"].
Definition representation_level_values := ["wind_farm"; "turbine"].
Definition turbine_representation_values :=
  ["actuator"; "bem"; "vortex_method"; "geometry_resolved"].
Definition location_values := ["onshore"; "offshore"].

Record t := mk {
  id : string;
  name : string;
  description : string;
  latest_release_version : string;
  latest_release_date : date;
  license : string;
  source_access_right : string;
  authors : list Author.t;
  programming_languages : list string;
  supported_platforms : list string;
  resource_type : string;
  resource_subtype : string;
  repository_url : string;
  documentation_url : string;
  distributions : list Distribution.t;
  function : string;
  time_domain : string;
  representation_level : string;
  turbine_representation : option string;
  location : option string;
  input_description : string;
  output_description : string }.

(** The field validators in declaration order, each paired with its field
    name; [validate_fields] combines exactly these. *)
Definition v_id get := field "id" v_str get.
Definition v_name get := field "name" v_str get.
Definition v_description get := field "description" v_str get.
Definition v_latest_release_version get := field "latest_release_version" v_str get.
Definition v_latest_release_date get := field "latest_release_date" v_date get.
Definition v_license get := field "license" v_str get.
Definition v_source_access_right get :=
  field "source_access_right" (v_literal source_access_right_values) get.
Definition v_authors get := field "authors" (v_list Author.validate) get.
Definition v_programming_languages get := field "programming_languages" (v_list v_str) get.
Definition v_supported_platforms get := field "supported_platforms" (v_list v_str) get.
Definition v_resource_type get :=
  field_default "resource_type" "software" (v_literal resource_type_values) get.
Definition v_resource_subtype get :=
  field "resource_subtype" (v_literal resource_subtype_values) get.
Definition v_repository_url get := field "repository_url" v_str get.
Definition v_documentation_url get := field "documentation_url" v_str get.
Definition v_distributions get := field "distributions" (v_list Distribution.validate) get.
Definition v_function get := field "function" v_str get.
Definition v_time_domain get := field "time_domain" (v_literal time_domain_values) get.
Definition v_representation_level get :=
  field "representation_level" (v_literal representation_level_values) get.
Definition v_turbine_representation get :=
  field "turbine_representation" (v_nullable (v_literal turbine_representation_values)) get.
Definition v_location get := field "location" (v_nullable (v_literal location_values)) get.
Definition v_input_description get := field "input_description" v_str get.
Definition v_output_description get := field "output_description" v_str get.

Definition validate_fields (get : string -> option value) : result t :=
  Ok mk
    <*> v_id get <*> v_name get <*> v_description get
    <*> v_latest_release_version get <*> v_latest_release_date get
    <*> v_license get <*> v_source_access_right get
    <*> v_authors get
    <*> v_programming_languages get <*> v_supported_platforms get
    <*> v_resource_type get <*> v_resource_subtype get
    <*> v_repository_url get <*> v_documentation_url get
    <*> v_distributions get
    <*> v_function get
    <*> v_time_domain get
    <*> v_representation_level get <*> v_turbine_representation get
    <*> v_location get
    <*> v_input_description get <*> v_output_description get.

(** [WindEnergySoftwareMetadataDocument.model_validate(raw)] on a dict. *)
Definition model_validate (raw : dict) : result t := validate_fields (getter raw).

(** The field names of the schema, in declaration order. *)
Definition fields : list string :=
  ["id"; "name"; "description"; "latest_release_version"; "latest_release_date";
   "license"; "source_access_right"; "authors"; "programming_languages";
   "supported_platforms"; "resource_type"; "resource_subtype"; "repository_url";
   "documentation_url"; "distributions"; "function"; "time_domain";
   "representation_level"; "turbine_representation"; "location";
   "input_description"; "output_description"].

(** The errors each field validator reports on its own, by field name. *)
Definition field_errors (get : string -> option value) : list (string * list error) :=
  [("id", errs (v_id get)); ("name", errs (v_name get));
   ("description", errs (v_description get));
   ("latest_release_version", errs (v_latest_release_version get));
   ("latest_release_date", errs (v_latest_release_date get));
   ("license", errs (v_license get));
   ("source_access_right", errs (v_source_access_right get));
   ("authors", errs (v_authors get));
   ("programming_languages", errs (v_programming_languages get));
   ("supported_platforms", errs (v_supported_platforms get));
   ("resource_type", errs (v_resource_type get));
   ("resource_subtype", errs (v_resource_subtype get));
   ("repository_url", errs (v_repository_url get));
   ("documentation_url", errs (v_documentation_url get));
   ("distributions", errs (v_distributions get));
   ("function", errs (v_function get));
   ("time_domain", errs (v_time_domain get));
   ("representation_level", errs (v_representation_level get));
   ("turbine_representation", errs (v_turbine_representation get));
   ("location", errs (v_location get));
   ("input_description", errs (v_input_description get));
   ("output_description", errs (v_output_description get))].

Definition opt_value (o : option string) : value :=
  match o with Some s => VStr s | None => VNone end.

(** [model_dump()] (Python mode: dates stay date objects, nested models
    become dicts, every field is written, in declaration order). *)
Definition dump (r : t) : dict :=
  [("id", VStr (id r)); ("name", VStr (name r)); ("description", VStr (description r));
   ("latest_release_version", VStr (latest_release_version r));
   ("latest_release_date", VDate (latest_release_date r));
   ("license", VStr (license r));
   ("source_access_right", VStr (source_access_right r));
   ("authors", VList (map Author.dump (authors r)));
   ("programming_languages", VList (map VStr (programming_languages r)));
   ("supported_platforms", VList (map VStr (supported_platforms r)));
   ("resource_type", VStr (resource_type r));
   ("resource_subtype", VStr (resource_subtype r));
   ("repository_url", VStr (repository_url r));
   ("documentation_url", VStr (documentation_url r));
   ("distributions", VList (map Distribution.dump (distributions r)));
   ("function", VStr (function r));
   ("time_domain", VStr (time_domain r));
   ("representation_level", VStr (representation_level r));
   ("turbine_representation", opt_value (turbine_representation r));
   ("location", opt_value (location r));
   ("input_description", VStr (input_description r));
   ("output_description", VStr (output_description r))].

End WindEnergySoftwareMetadataDocument.

(** ** Attribute assignment on a constructed model

    [BaseModel.__setattr__]: a frozen model refuses assignment; otherwise
    the value is stored in the instance (re-validated only under
    [validate_assignment]).  The source sets no [model_config], so the
    models use pydantic's default configuration.  Assignments of text to the
    [str] fields are modelled. *)
Record model_config := mkconfig { frozen : bool; validate_assignment : bool }.

Definition default_config : model_config := mkconfig false false.

Module Assign.
Import WindEnergySoftwareMetadataDocument.

Definition setattr_str (cfg : model_config) (r : t) (k : string) (s : string)
  : result t :=
  if frozen cfg then Err [mkerr [LKey k] FrozenInstance]
  else if String.eqb k "id" then Ok (mk s (name r) (description r) (latest_release_version r) (latest_release_date r) (license r) (source_access_right r) (authors r) (programming_languages r) (supported_platforms r) (resource_type r) (resource_subtype r) (repository_url r) (documentation_url r) (distributions r) (function r) (time_domain r) (representation_level r) (turbine_representation r) (location r) (input_description r) (output_description r))
      else if String.eqb k "name" then Ok (mk (id r) s (description r) (latest_release_version r) (latest_release_date r) (license r) (source_access_right r) (authors r) (programming_languages r) (supported_platforms r) (resource_type r) (resource_subtype r) (repository_url r) (documentation_url r) (distributions r) (function r) (time_domain r) (representation_level r) (turbine_representation r) (location r) (input_description r) (output_description r))
      else if String.eqb k "description" then Ok (mk (id r) (name r) s (latest_release_version r) (latest_release_date r) (license r) (source_access_right r) (authors r) (programming_languages r) (supported_platforms r) (resource_type r) (resource_subtype r) (repository_url r) (documentation_url r) (distributions r) (function r) (time_domain r) (representation_level r) (turbine_representation r) (location r) (input_description r) (output_description r))
      else if String.eqb k "latest_release_version" then Ok (mk (id r) (name r) (description r) s (latest_release_date r) (license r) (source_access_right r) (authors r) (programming_languages r) (supported_platforms r) (resource_type r) (resource_subtype r) (repository_url r) (documentation_url r) (distributions r) (function r) (time_domain r) (representation_level r) (turbine_representation r) (location r) (input_description r) (output_description r))
      else if String.eqb k "license" then Ok (mk (id r) (name r) (description r) (latest_release_version r) (latest_release_date r) s (source_access_right r) (authors r) (programming_languages r) (supported_platforms r) (resource_type r) (resource_subtype r) (repository_url r) (documentation_url r) (distributions r) (function r) (time_domain r) (representation_level r) (turbine_representation r) (location r) (input_description r) (output_description r))
      else if String.eqb k "repository_url" then Ok (mk (id r) (name r) (description r) (latest_release_version r) (latest_release_date r) (license r) (source_access_right r) (authors r) (programming_languages r) (supported_platforms r) (resource_type r) (resource_subtype r) s (documentation_url r) (distributions r) (function r) (time_domain r) (representation_level r) (turbine_representation r) (location r) (input_description r) (output_description r))
      else if String.eqb k "documentation_url" then Ok (mk (id r) (name r) (description r) (latest_release_version r) (latest_release_date r) (license r) (source_access_right r) (authors r) (programming_languages r) (supported_platforms r) (resource_type r) (resource_subtype r) (repository_url r) s (distributions r) (function r) (time_domain r) (representation_level r) (turbine_representation r) (location r) (input_description r) (output_description r))
      else if String.eqb k "function" then Ok (mk (id r) (name r) (description r) (latest_release_version r) (latest_release_date r) (license r) (source_access_right r) (authors r) (programming_languages r) (supported_platforms r) (resource_type r) (resource_subtype r) (repository_url r) (documentation_url r) (distributions r) s (time_domain r) (representation_level r) (turbine_representation r) (location r) (input_description r) (output_description r))
      else if String.eqb k "input_description" then Ok (mk (id r) (name r) (description r) (latest_release_version r) (latest_release_date r) (license r) (source_access_right r) (authors r) (programming_languages r) (supported_platforms r) (resource_type r) (resource_subtype r) (repository_url r) (documentation_url r) (distributions r) (function r) (time_domain r) (representation_level r) (turbine_representation r) (location r) s (output_description r))
      else if String.eqb k "output_description" then Ok (mk (id r) (name r) (description r) (latest_release_version r) (latest_release_date r) (license r) (source_access_right r) (authors r) (programming_languages r) (supported_platforms r) (resource_type r) (resource_subtype r) (repository_url r) (documentation_url r) (distributions r) (function r) (time_domain r) (representation_level r) (turbine_representation r) (location r) (input_description r) s)
      else Err [mkerr [LKey k] NoSuchField].

(** The fields annotated [str] in [WindEnergySoftwareMetadataDocument]. *)
Definition str_fields : list string :=
  ["id"; "name"; "description"; "latest_release_version"; "license";
   "repository_url"; "documentation_url"; "function"; "input_description";
   "output_description"].

Definition author_setattr_str (cfg : model_config) (a : Author.t) (k : string)
  (s : string) : result Author.t :=
  if frozen cfg then Err [mkerr [LKey k] FrozenInstance]
  else if String.eqb k "name" then Ok (Author.mk s (Author.orcid a) (Author.affiliation a))
  else if String.eqb k "orcid" then Ok (Author.mk (Author.name a) s (Author.affiliation a))
  else if String.eqb k "affiliation" then Ok (Author.mk (Author.name a) (Author.orcid a) s)
  else Err [mkerr [LKey k] NoSuchField].

End Assign.

(** ** A concrete input *)

Module Samples.
Import WindEnergySoftwareMetadataDocument.

Definition author1 : value :=
  VDict [("name", VStr "Ada"); ("orcid", VStr "0000-0002-1825-0097");
         ("affiliation", VStr "DTU")].

(** A well-formed document in the shape of the spec's example: model /
    turbine / bem, [location] null, [resource_type] not given. *)
Definition raw_doc : dict :=
  [("id", VStr "wes-1"); ("name", VStr "WindSim"); ("description", VStr "A solver");
   ("latest_release_version", VStr "1.0.0");
   ("latest_release_date", VStr "2024-02-29");
   ("license", VStr "MIT"); ("source_access_right", VStr "open");
   ("authors", VList [author1]);
   ("programming_languages", VList [VStr "Python"]);
   ("supported_platforms", VList [VStr "Linux"]);
   ("resource_subtype", VStr "model");
   ("repository_url", VStr "https://example.org/repo");
   ("documentation_url", VStr "https://example.org/docs");
   ("distributions", VList [VDict [("distribution_platform", VStr "PyPI");
                                   ("url", VStr "https://pypi.org/p")]]);
   ("function", VStr "simulate"); ("time_domain", VStr "steady");
   ("representation_level", VStr "turbine");
   ("turbine_representation", VStr "bem"); ("location", VNone);
   ("input_description", VStr "wind"); ("output_description", VStr "power")].

(** An input with neither [name] nor [license]. *)
Definition raw_no_name_license : dict :=
  filter (fun kv => negb (String.eqb (fst kv) "name" || String.eqb (fst kv) "license"))
    raw_doc.

(** The sample without its [location] key. *)
Definition raw_no_location : dict :=
  filter (fun kv => negb (String.eqb (fst kv) "location")) raw_doc.

(** The sample with empty [id], [name], [description] and author [name]. *)
Definition raw_empty_texts : dict :=
  set_key "id" (VStr "") (set_key "name" (VStr "") (set_key "description" (VStr "")
    (set_key "authors" (VList [VDict [("name", VStr ""); ("orcid", VStr "x");
                                      ("affiliation", VStr "y")]]) raw_doc))).

(** The sample with an undefined [time_domain] and an author list whose
    first element has a non-text [name] and whose third lacks [orcid]. *)
Definition raw_bad_elements : dict :=
  set_key "time_domain" (VStr "Steady")
    (set_key "authors"
      (VList [VDict [("name", VInt 7); ("orcid", VStr "a"); ("affiliation", VStr "b")];
              author1;
              VDict [("name", VStr "Bo"); ("affiliation", VStr "c")]]) raw_doc).

(** The sample with two keys that are not fields of the schema. *)
Definition extras : dict := [("homepage", VStr "https://example.org"); ("stars", VInt 12)].

(** The sample with a null [license]. *)
Definition raw_null_license : dict := set_key "license" VNone raw_doc.

(** The record [raw_doc] validates to. *)
Definition doc_record : WindEnergySoftwareMetadataDocument.t :=
  mk "wes-1" "WindSim" "A solver" "1.0.0" (mkdate 2024 2 29) "MIT" "open"
    [Author.mk "Ada" "0000-0002-1825-0097" "DTU"] ["Python"] ["Linux"]
    "software" "model" "https://example.org/repo" "https://example.org/docs"
    [Distribution.mk "PyPI" "https://pypi.org/p"] "simulate" "steady" "turbine"
    (Some "bem") None "wind" "power".

End Samples.

(** * Properties *)

(** ** Error collection *)


Lemma errs_ap {A B} (rf : result (A -> B)) (ra : result A) :
  errs (rf <*> ra) = errs rf ++ errs ra.
Proof. destruct rf, ra; simpl; auto using app_nil_r. Qed.

Lemma ap_ok_inv {A B} (rf : result (A -> B)) (ra : result A) b :
  rf <*> ra = Ok b -> exists f a, rf = Ok f /\ ra = Ok a /\ b = f a.
Proof. destruct rf, ra; simpl; intro H; inversion H; eauto. Qed.

Lemma reports_ap {A B} (rf : result (A -> B)) (ra : result A) :
  reports rf -> reports ra -> reports (rf <*> ra).
Proof.
  intros Hf Ha es; destruct rf as [f|e1], ra as [a|e2]; simpl; intro H;
    inversion H; subst; try (apply Ha; reflexivity); try (apply Hf; reflexivity).
  intro E; apply app_eq_nil in E as [E _]; exact (Hf e1 eq_refl E).
Qed.

Lemma reports_fail {A} k : reports (@fail A k).
Proof. intros es H; inversion H; discriminate. Qed.

Lemma reports_ok {A} (a : A) : reports (Ok a).
Proof. intros es H; discriminate. Qed.

Lemma reports_prefix {A} p (r : result A) : reports r -> reports (prefix p r).
Proof.
  intros Hr es; destruct r as [a|e]; simpl; intro H; inversion H; subst.
  intro E; apply map_eq_nil in E; exact (Hr e eq_refl E).
Qed.

Lemma reports_rmap {A B} (f : A -> B) r : reports r -> reports (rmap f r).
Proof. intros Hr es; destruct r; simpl; intro H; inversion H; subst; auto. Qed.

Create HintDb reports.
#[export] Hint Resolve reports_ap reports_fail reports_ok reports_prefix reports_rmap
  : reports.

Lemma reports_v_str v : reports (v_str v).
Proof. destruct v; simpl; auto with reports. Qed.

Lemma reports_v_literal L v : reports (v_literal L v).
Proof.
  destruct v; simpl; auto with reports.
  destruct (existsb _ _); auto with reports.
Qed.

Lemma reports_v_nullable {A} (f : value -> result A) v :
  (forall v, reports (f v)) -> reports (v_nullable f v).
Proof. intro Hf; destruct v; simpl; auto with reports. Qed.

Lemma reports_v_items {A} (f : value -> result A) :
  (forall v, reports (f v)) -> forall l i, reports (v_items f i l).
Proof.
  intros Hf l; induction l as [|v l IH]; intro i; cbn [v_items]; [apply reports_ok|].
  apply reports_ap; [apply reports_ap; [apply reports_ok|apply reports_prefix, Hf]|apply IH].
Qed.

Lemma reports_v_list {A} (f : value -> result A) v :
  (forall v, reports (f v)) -> reports (v_list f v).
Proof. intro Hf; destruct v; simpl; auto using reports_v_items with reports. Qed.

Lemma reports_v_date v : reports (v_date v).
Proof.
  destruct v; simpl; auto with reports.
  - unfold date_from_datetime; destruct (datetime_from_timestamp _) as [[? []]|];
      auto with reports.
  - unfold date_from_datetime; destruct (parse_date _); [auto with reports|].
    destruct (parse_datetime _) as [[? []]|]; auto with reports.
Qed.

Lemma reports_field {A} k (f : value -> result A) get :
  (forall v, reports (f v)) -> reports (field k f get).
Proof.
  intro Hf; unfold field; destruct (get k); auto with reports.
  intros es H; inversion H; discriminate.
Qed.

Lemma reports_field_default {A} k d (f : value -> result A) get :
  (forall v, reports (f v)) -> reports (field_default k d f get).
Proof. intro Hf; unfold field_default; destruct (get k); auto with reports. Qed.

#[export] Hint Resolve reports_v_str reports_v_literal reports_v_nullable
  reports_v_list reports_v_date reports_field reports_field_default : reports.

Lemma reports_author v : reports (Author.validate v).
Proof.
  destruct v; simpl; auto with reports.
  unfold Author.validate_fields; auto 10 with reports.
Qed.

Lemma reports_distribution v : reports (Distribution.validate v).
Proof.
  destruct v; simpl; auto with reports.
  unfold Distribution.validate_fields; auto 10 with reports.
Qed.

#[export] Hint Resolve reports_author reports_distribution : reports.

Module Doc.
Import WindEnergySoftwareMetadataDocument.

Lemma reports_validate_fields get : reports (validate_fields get).
Proof.
  unfold validate_fields, v_id, v_name, v_description, v_latest_release_version,
    v_latest_release_date, v_license, v_source_access_right, v_authors,
    v_programming_languages, v_supported_platforms, v_resource_type,
    v_resource_subtype, v_repository_url, v_documentation_url, v_distributions,
    v_function, v_time_domain, v_representation_level, v_turbine_representation,
    v_location, v_input_description, v_output_description.
  repeat apply reports_ap; auto 6 with reports.
Qed.

(** The errors of a document are those of its fields, in field order. *)
Lemma errs_validate_fields get :
  errs (validate_fields get) = concat (map snd (field_errors get)).
Proof.
  unfold validate_fields; rewrite !errs_ap.
  change (errs (Ok mk)) with (@nil error); rewrite app_nil_l.
  unfold field_errors; cbn [map snd concat].
  rewrite <- !app_assoc, app_nil_r; reflexivity.
Qed.

Ltac inv_ap :=
  repeat match goal with
  | H : _ <*> _ = Ok _ |- _ =>
      apply ap_ok_inv in H; destruct H as (? & ? & ? & ? & ?)
  | H : Ok _ = Ok _ |- _ => injection H as H
  end; subst.

(** A successful validation: every field validator succeeded, with the value
    stored in the record. *)
Lemma validate_fields_ok get r :
  validate_fields get = Ok r ->
  v_id get = Ok (id r) /\
  v_name get = Ok (name r) /\
  v_description get = Ok (description r) /\
  v_latest_release_version get = Ok (latest_release_version r) /\
  v_latest_release_date get = Ok (latest_release_date r) /\
  v_license get = Ok (license r) /\
  v_source_access_right get = Ok (source_access_right r) /\
  v_authors get = Ok (authors r) /\
  v_programming_languages get = Ok (programming_languages r) /\
  v_supported_platforms get = Ok (supported_platforms r) /\
  v_resource_type get = Ok (resource_type r) /\
  v_resource_subtype get = Ok (resource_subtype r) /\
  v_repository_url get = Ok (repository_url r) /\
  v_documentation_url get = Ok (documentation_url r) /\
  v_distributions get = Ok (distributions r) /\
  v_function get = Ok (function r) /\
  v_time_domain get = Ok (time_domain r) /\
  v_representation_level get = Ok (representation_level r) /\
  v_turbine_representation get = Ok (turbine_representation r) /\
  v_location get = Ok (location r) /\
  v_input_description get = Ok (input_description r) /\
  v_output_description get = Ok (output_description r).
Proof. intro H; unfold validate_fields in H; inv_ap; simpl; tauto. Qed.

Lemma validate_fields_intro get r :
  v_id get = Ok (id r) ->
  v_name get = Ok (name r) ->
  v_description get = Ok (description r) ->
  v_latest_release_version get = Ok (latest_release_version r) ->
  v_latest_release_date get = Ok (latest_release_date r) ->
  v_license get = Ok (license r) ->
  v_source_access_right get = Ok (source_access_right r) ->
  v_authors get = Ok (authors r) ->
  v_programming_languages get = Ok (programming_languages r) ->
  v_supported_platforms get = Ok (supported_platforms r) ->
  v_resource_type get = Ok (resource_type r) ->
  v_resource_subtype get = Ok (resource_subtype r) ->
  v_repository_url get = Ok (repository_url r) ->
  v_documentation_url get = Ok (documentation_url r) ->
  v_distributions get = Ok (distributions r) ->
  v_function get = Ok (function r) ->
  v_time_domain get = Ok (time_domain r) ->
  v_representation_level get = Ok (representation_level r) ->
  v_turbine_representation get = Ok (turbine_representation r) ->
  v_location get = Ok (location r) ->
  v_input_description get = Ok (input_description r) ->
  v_output_description get = Ok (output_description r) ->
  validate_fields get = Ok r.
Proof.
  intros; unfold validate_fields.
  repeat match goal with H : _ = Ok _ |- _ => rewrite H; clear H end.
  destruct r; reflexivity.
Qed.

(** Validation succeeds exactly when no field reports an error. *)
Lemma validate_fields_ok_iff get :
  (exists r, validate_fields get = Ok r) <-> concat (map snd (field_errors get)) = [].
Proof.
  rewrite <- errs_validate_fields; split.
  - intros [r H]; rewrite H; reflexivity.
  - destruct (validate_fields get) as [r|es] eqn:E; [eauto|].
    simpl; intro Hn; exfalso; exact (reports_validate_fields get es E Hn).
Qed.

Lemma in_errs_err {A} (r : result A) e :
  In e (errs r) -> exists es, r = Err es /\ In e es.
Proof. destruct r; simpl; [tauto|eauto]. Qed.

(** Every error of a field validator is located under the field's name. *)
Lemma field_errs_loc {A} k (f : value -> result A) get e :
  In e (errs (field k f get)) -> exists l, loc e = LKey k :: l.
Proof.
  unfold field; destruct (get k); simpl.
  - destruct (f v); simpl; [tauto|]. rewrite in_map_iff.
    intros (e' & <- & _); simpl; eauto.
  - intros [<-|[]]; simpl; eauto.
Qed.

Lemma field_default_errs_loc {A} k d (f : value -> result A) get e :
  In e (errs (field_default k d f get)) -> exists l, loc e = LKey k :: l.
Proof.
  unfold field_default; destruct (get k); simpl; [|tauto].
  destruct (f v); simpl; [tauto|]. rewrite in_map_iff.
  intros (e' & <- & _); simpl; eauto.
Qed.

Lemma field_errors_loc get k fes e :
  In (k, fes) (field_errors get) -> In e fes -> exists l, loc e = LKey k :: l.
Proof.
  unfold field_errors; simpl.
  intros Hk; repeat destruct Hk as [Hk|Hk]; try contradiction;
    injection Hk as <- <-;
    first [apply field_errs_loc | apply field_default_errs_loc].
Qed.

Lemma field_errors_keys get : map fst (field_errors get) = fields.
Proof. reflexivity. Qed.

Lemma field_missing {A} k (f : value -> result A) get :
  get k = None -> field k f get = Err [mkerr [LKey k] Missing].
Proof. unfold field; intros ->; reflexivity. Qed.

Lemma field_present {A} k (f : value -> result A) get v :
  get k = Some v -> field k f get = prefix (LKey k) (f v).
Proof. unfold field; intros ->; reflexivity. Qed.

Lemma field_ok_inv {A} k (f : value -> result A) get a :
  field k f get = Ok a -> exists v, get k = Some v /\ f v = Ok a.
Proof.
  unfold field; destruct (get k); [|discriminate].
  destruct (f v) eqn:E; simpl; intro H; inversion H; subst; eauto.
Qed.

Lemma getter_lookup raw k : getter raw k = lookup k raw.
Proof. reflexivity. Qed.

(** Closes [In e (concat (map snd (field_errors get)))] once the field
    reporting [e] has been rewritten to [Err [e]]. *)
Ltac in_errs :=
  match goal with |- In ?e _ => apply in_concat; exists [e]; split end;
  [cbn [map snd In]; repeat (solve [left; reflexivity] || right) | left; reflexivity].

(** ** C1 *)

(** C1: [model_validate] either succeeds or fails with the complete list of
    the errors of all fields (each field's own errors are all included, in
    field order, none is dropped after the first); in particular an input
    missing both [name] and [license] gets a [missing] error for each. *)
Theorem validate_reports_all_errors (raw : dict) :
  (((exists r, model_validate raw = Ok r)
    /\ concat (map snd (field_errors (getter raw))) = [])
   \/ (exists es, model_validate raw = Err es /\ es <> []
        /\ es = concat (map snd (field_errors (getter raw)))
        /\ (forall k fes, In (k, fes) (field_errors (getter raw)) -> incl fes es)))
  /\ (lookup "name" raw = None -> lookup "license" raw = None ->
      exists es, model_validate raw = Err es
        /\ In (mkerr [LKey "name"] Missing) es
        /\ In (mkerr [LKey "license"] Missing) es).
Proof.
  split.
  - unfold model_validate.
    pose proof (errs_validate_fields (getter raw)) as He.
    destruct (validate_fields (getter raw)) as [r|es] eqn:E.
    + left; split; [eauto|]. exact (eq_sym He).
    + right; exists es; change (errs (Err es)) with es in He; repeat split; auto.
      * exact (reports_validate_fields _ es E).
      * intros k fes Hin e He'; rewrite He, in_concat.
        exists fes; split; auto. apply in_map_iff; exists (k, fes); auto.
  - intros Hname Hlic.
    assert (Hn : In (mkerr [LKey "name"] Missing) (errs (model_validate raw))).
    { unfold model_validate; rewrite errs_validate_fields; unfold field_errors.
      unfold v_name; rewrite (field_missing "name" _ _ Hname); in_errs. }
    assert (Hl : In (mkerr [LKey "license"] Missing) (errs (model_validate raw))).
    { unfold model_validate; rewrite errs_validate_fields; unfold field_errors.
      unfold v_license; rewrite (field_missing "license" _ _ Hlic); in_errs. }
    destruct (in_errs_err _ _ Hn) as (es & E & Hes).
    rewrite E in Hl; exact (ex_intro _ es (conj E (conj Hes Hl))).
Qed.


Lemma validate_reports_all_errors_witness :
  lookup "name" Samples.raw_no_name_license = None /\ lookup "license" Samples.raw_no_name_license = None /\
  model_validate Samples.raw_no_name_license
    = Err [mkerr [LKey "name"] Missing; mkerr [LKey "license"] Missing] /\
  exists es, model_validate Samples.raw_no_name_license = Err es
    /\ In (mkerr [LKey "name"] Missing) es /\ In (mkerr [LKey "license"] Missing) es.
Proof.
  split; [reflexivity|]. split; [reflexivity|]. split; [vm_compute; reflexivity|].
  apply (proj2 (validate_reports_all_errors Samples.raw_no_name_license)); reflexivity.
Defined.

(** ** Errors located at one field *)

Lemma v_literal_fail L v :
  (forall s, v = VStr s -> ~ In s L) -> v_literal L v = fail (LiteralError L).
Proof.
  intro H; destruct v; simpl; auto.
  destruct (existsb (String.eqb s) L) eqn:E; auto.
  apply existsb_exists in E as (x & Hx & Hs); apply String.eqb_eq in Hs; subst.
  exfalso; exact (H x eq_refl Hx).
Qed.

Lemma v_literal_ok L s : In s L -> v_literal L (VStr s) = Ok s.
Proof.
  intro H; simpl; replace (existsb (String.eqb s) L) with true; auto.
  symmetry; apply existsb_exists; exists s; split; auto; apply String.eqb_refl.
Qed.

(** The errors of [field_errors] under key [k] come from field [k] alone. *)
Ltac field_pair H :=
  unfold field_errors in H; cbn [In] in H;
  repeat destruct H as [H|H]; try contradiction; try discriminate H;
  injection H as <-.

(** If field [k] reports nothing, no error of the document is located at [k]. *)
Lemma no_error_at get k :
  (forall fes, In (k, fes) (field_errors get) -> fes = []) ->
  forall e, In e (errs (validate_fields get)) -> hd_error (loc e) <> Some (LKey k).
Proof.
  intros Hk e He; rewrite errs_validate_fields, in_concat in He.
  destruct He as (fes & Hfes & He); apply in_map_iff in Hfes as ([k' fes'] & <- & Hin).
  destruct (field_errors_loc _ _ _ _ Hin He) as (l & Hl); rewrite Hl; simpl.
  intro E; injection E as ->.
  rewrite (Hk fes' Hin) in He; contradiction.
Qed.

Lemma missing_in_errs get k :
  In k fields -> k <> "resource_type" -> get k = None ->
  In (mkerr [LKey k] Missing) (errs (validate_fields get)).
Proof.
  intros Hk Hr Hg; rewrite errs_validate_fields.
  unfold fields in Hk; cbn [In] in Hk.
  repeat destruct Hk as [Hk|Hk]; try contradiction; subst k; try (now exfalso);
    unfold field_errors, v_id, v_name, v_description, v_latest_release_version, v_latest_release_date, v_license, v_source_access_right, v_authors, v_programming_languages, v_supported_platforms, v_resource_type, v_resource_subtype, v_repository_url, v_documentation_url, v_distributions, v_function, v_time_domain, v_representation_level, v_turbine_representation, v_location, v_input_description, v_output_description;
    rewrite (field_missing _ _ _ Hg); in_errs.
Qed.

Ltac in_list := cbn [In fields]; repeat (solve [left; reflexivity] || right).

(** ** C2 *)

(** C2: when [resource_type] is absent and every other field is valid, the
    document validates and carries [resource_type = "software"]; when it is
    present with any other value, validation fails with the [literal_error]
    (expected ['software']) located at [resource_type]. *)
Theorem resource_type_default_or_conflict (raw : dict) :
  (lookup "resource_type" raw = None ->
   (forall k fes, In (k, fes) (field_errors (getter raw)) -> k <> "resource_type" -> fes = []) ->
   exists r, model_validate raw = Ok r /\ resource_type r = "software")
  /\ (forall v, lookup "resource_type" raw = Some v -> v <> VStr "software" ->
      exists es, model_validate raw = Err es
        /\ In (mkerr [LKey "resource_type"] (LiteralError ["software"])) es).
Proof.
  unfold model_validate; split.
  - intros Habs Hother.
    assert (Hrt : v_resource_type (getter raw) = Ok "software").
    { unfold v_resource_type, field_default; rewrite getter_lookup, Habs; reflexivity. }
    destruct (proj2 (validate_fields_ok_iff (getter raw))) as [r Hr].
    { apply concat_nil_Forall, Forall_forall; intros fes Hfes.
      apply in_map_iff in Hfes as ([k fes'] & <- & Hin); simpl.
      destruct (String.eqb_spec k "resource_type") as [->|Hne].
      - field_pair Hin; rewrite Hrt; reflexivity.
      - exact (Hother k fes' Hin Hne). }
    exists r; split; auto.
    pose proof (validate_fields_ok _ _ Hr) as Hp; decompose [and] Hp.
    congruence.
  - intros v Hv Hne.
    assert (Hin : In (mkerr [LKey "resource_type"] (LiteralError ["software"]))
                     (errs (validate_fields (getter raw)))).
    { rewrite errs_validate_fields; unfold field_errors, v_resource_type, field_default.
      rewrite getter_lookup, Hv, v_literal_fail.
      - in_errs.
      - intros s -> [<-|[]]; exact (Hne eq_refl). }
    destruct (in_errs_err _ _ Hin) as (es & E & Hes); exact (ex_intro _ es (conj E Hes)).
Qed.

Lemma resource_type_default_or_conflict_witness :
  (exists r, model_validate Samples.raw_doc = Ok r /\ resource_type r = "software")
  /\ exists es, model_validate (Samples.raw_doc ++ [("resource_type", VStr "hardware")]) = Err es
        /\ In (mkerr [LKey "resource_type"] (LiteralError ["software"])) es.
Proof.
  split.
  - apply (proj1 (resource_type_default_or_conflict Samples.raw_doc)); [reflexivity|].
    intros k fes Hin _; vm_compute in Hin.
    repeat destruct Hin as [Hin|Hin]; try contradiction; injection Hin as _ <-; reflexivity.
  - apply (proj2 (resource_type_default_or_conflict _) (VStr "hardware")); [reflexivity|].
    discriminate.
Defined.

(** ** C3 *)

Lemma nullable_field_errs get k L :
  get k = Some VNone -> errs (field k (v_nullable (v_literal L)) get) = [].
Proof. intro H; unfold field; rewrite H; reflexivity. Qed.

Lemma nullable_field_ok get k L :
  get k = Some VNone -> field k (v_nullable (v_literal L)) get = Ok None.
Proof. intro H; unfold field; rewrite H; reflexivity. Qed.

(** C3 (as the code stands, counterexample below): the claim's first half
    fails for [location]: a document whose [location] key is absent is
    rejected with a [missing] error, although every other field is valid;
    and its second half fails for [resource_type], which may be absent. *)
Lemma optional_fields_absent_counterexample :
  lookup "location" Samples.raw_no_location = None
  /\ model_validate Samples.raw_no_location = Err [mkerr [LKey "location"] Missing]
  /\ lookup "resource_type" Samples.raw_doc = None
  /\ (exists r, model_validate Samples.raw_doc = Ok r).
Proof.
  split; [reflexivity|]. split; [vm_compute; reflexivity|]. split; [reflexivity|].
  eexists; vm_compute; reflexivity.
Qed.

(** C3 (amended): every field but [resource_type] is required: if its key is
    absent, validation fails with a [missing] error located at exactly that
    field, [turbine_representation] and [location] included.  Those two
    accept null: a null value gives no error at the field and the field is
    [None] in the output.  [resource_type] may be absent: no error is then
    located at it. *)
Theorem required_fields_and_nullable (raw : dict) :
  (forall k, In k fields -> k <> "resource_type" -> lookup k raw = None ->
     exists es, model_validate raw = Err es /\ In (mkerr [LKey k] Missing) es)
  /\ (lookup "resource_type" raw = None ->
      forall e, In e (errs (model_validate raw)) -> hd_error (loc e) <> Some (LKey "resource_type"))
  /\ (forall k, k = "turbine_representation" \/ k = "location" -> lookup k raw = Some VNone ->
      forall e, In e (errs (model_validate raw)) -> hd_error (loc e) <> Some (LKey k))
  /\ (forall r, model_validate raw = Ok r ->
      (lookup "turbine_representation" raw = Some VNone -> turbine_representation r = None)
      /\ (lookup "location" raw = Some VNone -> location r = None)).
Proof.
  unfold model_validate; split; [|split; [|split]].
  - intros k Hk Hr Hg.
    destruct (in_errs_err _ _ (missing_in_errs (getter raw) k Hk Hr Hg)) as (es & E & Hes).
    exact (ex_intro _ es (conj E Hes)).
  - intros Habs; apply no_error_at; intros fes Hin; field_pair Hin.
    unfold v_resource_type, field_default; rewrite getter_lookup, Habs; reflexivity.
  - intros k [-> | ->] Hnull; apply no_error_at; intros fes Hin; field_pair Hin;
      apply nullable_field_errs; exact Hnull.
  - intros r Hr; pose proof (validate_fields_ok _ _ Hr) as Hp; decompose [and] Hp.
    split; intro Hnull.
    + unfold v_turbine_representation in *.
      rewrite (nullable_field_ok _ _ _ Hnull) in *; congruence.
    + unfold v_location in *.
      rewrite (nullable_field_ok _ _ _ Hnull) in *; congruence.
Qed.

Lemma required_fields_and_nullable_witness :
  (exists es, model_validate Samples.raw_no_location = Err es
     /\ In (mkerr [LKey "location"] Missing) es)
  /\ (forall e, In e (errs (model_validate Samples.raw_doc)) ->
      hd_error (loc e) <> Some (LKey "resource_type"))
  /\ (forall e, In e (errs (model_validate Samples.raw_doc)) ->
      hd_error (loc e) <> Some (LKey "location"))
  /\ (forall r, model_validate Samples.raw_doc = Ok r -> location r = None).
Proof.
  pose proof (required_fields_and_nullable Samples.raw_no_location) as [H1 _].
  pose proof (required_fields_and_nullable Samples.raw_doc) as [_ [H2 [H3 H4]]].
  split; [apply H1; [in_list | discriminate | reflexivity]|].
  split; [apply H2; reflexivity|].
  split; [apply H3; [right; reflexivity | reflexivity]|].
  intros r Hr; apply (proj2 (H4 r Hr)); reflexivity.
Defined.

(** ** C4 *)

Lemma lookup_set_key k v k' d :
  lookup k' (set_key k v d) = if String.eqb k' k then Some v else lookup k' d.
Proof.
  induction d as [|[k0 v0] d IH]; simpl.
  - destruct (String.eqb k' k); reflexivity.
  - destruct (String.eqb_spec k k0) as [<-|Hne]; simpl.
    + destruct (String.eqb k' k); reflexivity.
    + rewrite IH; destruct (String.eqb_spec k' k) as [E|]; auto.
      subst k'; apply String.eqb_neq in Hne; rewrite Hne; reflexivity.
Qed.

(** Proves [validate_fields] of an input with one key set to a new string,
    given the field facts of the original input. *)
Ltac update_field :=
  apply validate_fields_intro;
  match goal with |- _ = Ok ?p => let p' := eval cbn in p in change p with p' end;
  unfold v_id, v_name, v_description, v_latest_release_version, v_latest_release_date, v_license, v_source_access_right, v_authors, v_programming_languages, v_supported_platforms, v_resource_type, v_resource_subtype, v_repository_url, v_documentation_url, v_distributions, v_function, v_time_domain, v_representation_level, v_turbine_representation, v_location, v_input_description, v_output_description, field, field_default, getter; rewrite !lookup_set_key;
  cbv [String.eqb Ascii.eqb Bool.eqb]; first [reflexivity | assumption].

(** C4 (as the code stands, counterexample below): the [str] annotations
    put no constraint on the text, so a document with empty [id], [name],
    [description] and an author with an empty [name] validates. *)
Lemma empty_text_counterexample :
  exists r, model_validate Samples.raw_empty_texts = Ok r
    /\ id r = "" /\ name r = "" /\ description r = ""
    /\ map Author.name (authors r) = [""].
Proof. eexists; split; [vm_compute; reflexivity | vm_compute; tauto]. Qed.

(** C4 (amended): [id], [name], [description] and [Author.name] accept every
    string, the empty one included: setting one of them to any text in a
    valid input keeps it valid, with that text in the output. *)
Theorem text_fields_accept_any_string (raw : dict) (r : t) (s : string) :
  model_validate raw = Ok r ->
  (exists r', model_validate (set_key "id" (VStr s) raw) = Ok r' /\ id r' = s)
  /\ (exists r', model_validate (set_key "name" (VStr s) raw) = Ok r' /\ name r' = s)
  /\ (exists r', model_validate (set_key "description" (VStr s) raw) = Ok r'
                 /\ description r' = s)
  /\ (forall kv a, Author.validate (VDict kv) = Ok a ->
      Author.validate (VDict (set_key "name" (VStr s) kv))
        = Ok (Author.mk s (Author.orcid a) (Author.affiliation a))).
Proof.
  unfold model_validate; intro H.
  pose proof (validate_fields_ok _ _ H) as Hp.
  unfold v_id, v_name, v_description, v_latest_release_version, v_latest_release_date, v_license, v_source_access_right, v_authors, v_programming_languages, v_supported_platforms, v_resource_type, v_resource_subtype, v_repository_url, v_documentation_url, v_distributions, v_function, v_time_domain, v_representation_level, v_turbine_representation, v_location, v_input_description, v_output_description, field, field_default, getter in Hp; decompose [and] Hp.
  split; [|split; [|split]].
  - exists (mk s (name r) (description r) (latest_release_version r) (latest_release_date r) (license r) (source_access_right r) (authors r) (programming_languages r) (supported_platforms r) (resource_type r) (resource_subtype r) (repository_url r) (documentation_url r) (distributions r) (function r) (time_domain r) (representation_level r) (turbine_representation r) (location r) (input_description r) (output_description r)); split; [update_field|reflexivity].
  - exists (mk (id r) s (description r) (latest_release_version r) (latest_release_date r) (license r) (source_access_right r) (authors r) (programming_languages r) (supported_platforms r) (resource_type r) (resource_subtype r) (repository_url r) (documentation_url r) (distributions r) (function r) (time_domain r) (representation_level r) (turbine_representation r) (location r) (input_description r) (output_description r)); split; [update_field|reflexivity].
  - exists (mk (id r) (name r) s (latest_release_version r) (latest_release_date r) (license r) (source_access_right r) (authors r) (programming_languages r) (supported_platforms r) (resource_type r) (resource_subtype r) (repository_url r) (documentation_url r) (distributions r) (function r) (time_domain r) (representation_level r) (turbine_representation r) (location r) (input_description r) (output_description r)); split; [update_field|reflexivity].
  - intros kv a Ha; simpl in Ha |- *.
    unfold Author.validate_fields in Ha |- *; inv_ap.
    unfold field, getter in *; rewrite !lookup_set_key; cbv [String.eqb Ascii.eqb Bool.eqb].
    repeat match goal with H : _ = Ok _ |- _ => rewrite H; clear H end; reflexivity.
Qed.

Lemma text_fields_accept_any_string_witness :
  (exists r, model_validate Samples.raw_doc = Ok r)
  /\ exists r', model_validate (set_key "name" (VStr "") Samples.raw_doc) = Ok r'
                /\ name r' = "".
Proof.
  assert (H : exists r, model_validate Samples.raw_doc = Ok r) by (eexists; reflexivity).
  split; [exact H|]. destruct H as [r H].
  exact (proj1 (proj2 (text_fields_accept_any_string _ _ "" H))).
Defined.

(** ** C5 *)

(** C5: a [time_domain] value other than ["steady"] and ["dynamic"] makes
    validation fail with a [literal_error] located at [time_domain], whatever
    the other fields hold. *)
Theorem time_domain_outside_rejected (raw : dict) (v : value) :
  lookup "time_domain" raw = Some v -> v <> VStr "steady" -> v <> VStr "dynamic" ->
  exists es, model_validate raw = Err es
    /\ In (mkerr [LKey "time_domain"] (LiteralError ["steady"; "dynamic"])) es.
Proof.
  intros Hv H1 H2.
  assert (Hin : In (mkerr [LKey "time_domain"] (LiteralError ["steady"; "dynamic"]))
                   (errs (validate_fields (getter raw)))).
  { rewrite errs_validate_fields; unfold field_errors, v_time_domain, field.
    rewrite getter_lookup, Hv, v_literal_fail.
    - in_errs.
    - intros s -> [<-|[<-|[]]]; [exact (H1 eq_refl) | exact (H2 eq_refl)]. }
  destruct (in_errs_err _ _ Hin) as (es & E & Hes); exact (ex_intro _ es (conj E Hes)).
Qed.

Lemma time_domain_outside_rejected_witness :
  exists es, model_validate Samples.raw_bad_elements = Err es
    /\ In (mkerr [LKey "time_domain"] (LiteralError ["steady"; "dynamic"])) es.
Proof. apply (time_domain_outside_rejected _ (VStr "Steady")); [reflexivity|discriminate|discriminate]. Defined.

(** ** C6 *)

Lemma errs_prefix {A} p (r : result A) : errs (prefix p r) = map (prefix_err p) (errs r).
Proof. destruct r; reflexivity. Qed.

(** Each element of a list is validated on its own: its errors are all
    reported, under its index, whatever the other elements are. *)
Lemma v_items_elem_errs {A} (f : value -> result A) l : forall i n v e,
  nth_error l n = Some v -> In e (errs (f v)) ->
  In (prefix_err (LIdx (i + n)) e) (errs (v_items f i l)).
Proof.
  induction l as [|v0 l IH]; intros i n v e Hn He; [destruct n; discriminate|].
  cbn [v_items]; rewrite !errs_ap, !in_app_iff, errs_prefix.
  destruct n as [|n]; simpl in Hn.
  - injection Hn as ->; left; right; rewrite Nat.add_0_r; apply in_map; exact He.
  - right; replace (i + S n) with (S i + n) by lia; exact (IH (S i) n v e Hn He).
Qed.

(** C6: every element of [authors] and of [distributions] is validated on
    its own against [Author] / [Distribution]: each error of element [n] is
    reported at location [authors, n, ...] (resp. [distributions, n, ...]),
    whatever the other elements hold. *)
Theorem sequence_elements_validated_independently (raw : dict) :
  (forall vs n v e, lookup "authors" raw = Some (VList vs) -> nth_error vs n = Some v ->
     In e (errs (Author.validate v)) ->
     exists es, model_validate raw = Err es
       /\ In (mkerr (LKey "authors" :: LIdx n :: loc e) (kind e)) es)
  /\ (forall vs n v e, lookup "distributions" raw = Some (VList vs) ->
     nth_error vs n = Some v -> In e (errs (Distribution.validate v)) ->
     exists es, model_validate raw = Err es
       /\ In (mkerr (LKey "distributions" :: LIdx n :: loc e) (kind e)) es).
Proof.
  unfold model_validate; split; intros vs n v e Hl Hn He;
    match goal with |- exists es, validate_fields ?g = Err es /\ In ?x es =>
      assert (Hin : In x (errs (validate_fields g))) end;
    try (destruct (in_errs_err _ _ Hin) as (es & E & Hes);
         exact (ex_intro _ es (conj E Hes)));
    rewrite errs_validate_fields; apply in_concat.
  - exists (errs (v_authors (getter raw))); split; [in_list|].
    unfold v_authors; rewrite (field_present _ _ _ _ Hl), errs_prefix; simpl.
    apply (in_map (prefix_err (LKey "authors")) _ (prefix_err (LIdx (0 + n)) e)).
    exact (v_items_elem_errs _ _ 0 n v e Hn He).
  - exists (errs (v_distributions (getter raw))); split; [in_list|].
    unfold v_distributions; rewrite (field_present _ _ _ _ Hl), errs_prefix; simpl.
    apply (in_map (prefix_err (LKey "distributions")) _ (prefix_err (LIdx (0 + n)) e)).
    exact (v_items_elem_errs _ _ 0 n v e Hn He).
Qed.

(** Two invalid authors, both reported; the third one's error is at
    [authors[2].orcid]. *)
Lemma sequence_elements_validated_independently_witness :
  (exists es, model_validate Samples.raw_bad_elements = Err es
     /\ In (mkerr [LKey "authors"; LIdx 0; LKey "name"] StringType) es)
  /\ (exists es, model_validate Samples.raw_bad_elements = Err es
     /\ In (mkerr [LKey "authors"; LIdx 2; LKey "orcid"] Missing) es)
  /\ model_validate Samples.raw_bad_elements
     = Err [mkerr [LKey "authors"; LIdx 0; LKey "name"] StringType;
            mkerr [LKey "authors"; LIdx 2; LKey "orcid"] Missing;
            mkerr [LKey "time_domain"] (LiteralError ["steady"; "dynamic"])].
Proof.
  pose proof (proj1 (sequence_elements_validated_independently Samples.raw_bad_elements)) as H.
  split; [|split; [|vm_compute; reflexivity]].
  - exact (H _ 0 _ (mkerr [LKey "name"] StringType) eq_refl eq_refl (or_introl eq_refl)).
  - exact (H _ 2 _ (mkerr [LKey "orcid"] Missing) eq_refl eq_refl (or_introl eq_refl)).
Defined.

(** ** C7 *)

Lemma v_literal_ok_inv L v s : v_literal L v = Ok s -> v = VStr s /\ In s L.
Proof.
  destruct v as [| | |s'| | |]; simpl; try discriminate.
  destruct (existsb (String.eqb s') L) eqn:E; [|discriminate].
  intro H; injection H as <-; split; auto.
  apply existsb_exists in E as (x & Hx & Hs); apply String.eqb_eq in Hs; subst; auto.
Qed.

Lemma field_literal_in k L get s : field k (v_literal L) get = Ok s -> In s L.
Proof. intro H; apply field_ok_inv in H as (v & _ & H); apply (v_literal_ok_inv _ _ _ H). Qed.

Lemma field_default_literal_in k d L get s :
  field_default k d (v_literal L) get = Ok s -> s = d \/ In s L.
Proof.
  unfold field_default; destruct (get k); [|intro H; injection H; auto].
  destruct (v_literal L v) eqn:E; simpl; intro H; inversion H; subst.
  right; apply (v_literal_ok_inv _ _ _ E).
Qed.

Lemma field_nullable_in k L get o :
  field k (v_nullable (v_literal L)) get = Ok o -> forall s, o = Some s -> In s L.
Proof.
  intro H; apply field_ok_inv in H as (v & _ & H); intros s ->.
  destruct v as [| | |s'| | |]; simpl in H; try (destruct (existsb _ _); discriminate);
    try discriminate.
  destruct (existsb (String.eqb s') L) eqn:E; [|discriminate].
  injection H as <-.
  apply existsb_exists in E as (x & Hx & Hs); apply String.eqb_eq in Hs; subst; auto.
Qed.

Lemma nullable_literal_ok L o :
  (forall s, o = Some s -> In s L) -> v_nullable (v_literal L) (opt_value o) = Ok o.
Proof.
  destruct o as [s|]; simpl; auto.
  intro H; specialize (H s eq_refl).
  replace (existsb (String.eqb s) L) with true; auto.
  symmetry; apply existsb_exists; exists s; split; auto; apply String.eqb_refl.
Qed.

Lemma v_items_map {A} (f : value -> result A) (g : A -> value) :
  (forall a, f (g a) = Ok a) -> forall l i, v_items f i (map g l) = Ok l.
Proof.
  intros Hfg l; induction l as [|a l IH]; intro i; cbn [v_items map]; auto.
  rewrite Hfg, IH; reflexivity.
Qed.

Lemma author_dump_ok a : Author.validate (Author.dump a) = Ok a.
Proof. destruct a; reflexivity. Qed.

Lemma distribution_dump_ok d : Distribution.validate (Distribution.dump d) = Ok d.
Proof. destruct d; reflexivity. Qed.

(** C7: a validated record, dumped with [model_dump()] and validated again,
    gives back the same record; and [model_validate] is a function of its
    input: two calls on the same input give the same result. *)
Theorem roundtrip_and_determinism :
  (forall raw r, model_validate raw = Ok r -> model_validate (dump r) = Ok r)
  /\ (forall raw res1 res2, model_validate raw = res1 -> model_validate raw = res2 ->
      res1 = res2).
Proof.
  split; [|intros; congruence].
  unfold model_validate; intros raw r H.
  pose proof (validate_fields_ok _ _ H) as Hp; decompose [and] Hp; clear Hp.
  repeat match goal with
  | Hf : field _ (v_literal _) _ = Ok _ |- _ => apply field_literal_in in Hf
  | Hf : field _ (v_nullable (v_literal _)) _ = Ok _ |- _ => pose proof (field_nullable_in _ _ _ _ Hf); clear Hf
  | Hf : field_default _ _ (v_literal _) _ = Ok _ |- _ =>
      apply field_default_literal_in in Hf;
      assert (In (resource_type r) resource_type_values) by (destruct Hf as [->|]; simpl; auto);
      clear Hf
  | Hf : v_source_access_right _ = Ok _ |- _ => unfold v_source_access_right in Hf
  | Hf : v_resource_type _ = Ok _ |- _ => unfold v_resource_type in Hf
  | Hf : v_resource_subtype _ = Ok _ |- _ => unfold v_resource_subtype in Hf
  | Hf : v_time_domain _ = Ok _ |- _ => unfold v_time_domain in Hf
  | Hf : v_representation_level _ = Ok _ |- _ => unfold v_representation_level in Hf
  | Hf : v_turbine_representation _ = Ok _ |- _ => unfold v_turbine_representation in Hf
  | Hf : v_location _ = Ok _ |- _ => unfold v_location in Hf
  end.
  apply validate_fields_intro;
    unfold v_id, v_name, v_description, v_latest_release_version, v_latest_release_date, v_license, v_source_access_right, v_authors, v_programming_languages, v_supported_platforms, v_resource_type, v_resource_subtype, v_repository_url, v_documentation_url, v_distributions, v_function, v_time_domain, v_representation_level, v_turbine_representation, v_location, v_input_description, v_output_description, field, field_default;
    cbv [getter dump lookup String.eqb Ascii.eqb Bool.eqb];
    first
      [ reflexivity
      | rewrite v_literal_ok by assumption; reflexivity
      | rewrite nullable_literal_ok by assumption; reflexivity
      | cbn [v_list prefix]; rewrite v_items_map; auto using author_dump_ok, distribution_dump_ok ].
Qed.

Lemma roundtrip_and_determinism_witness :
  exists r, model_validate Samples.raw_doc = Ok r
    /\ model_validate (dump r) = Ok r
    /\ model_validate Samples.raw_doc = model_validate Samples.raw_doc.
Proof.
  assert (H : exists r, model_validate Samples.raw_doc = Ok r) by (eexists; reflexivity).
  destruct H as [r H]; exists r; split; [exact H|split].
  - exact (proj1 roundtrip_and_determinism _ _ H).
  - exact (proj2 roundtrip_and_determinism _ _ _ eq_refl eq_refl).
Defined.

(** ** C8 *)




(** ** C9 *)

Lemma validate_fields_ext g1 g2 :
  (forall k, In k fields -> g1 k = g2 k) -> validate_fields g1 = validate_fields g2.
Proof.
  intro H; unfold validate_fields, v_id, v_name, v_description, v_latest_release_version, v_latest_release_date, v_license, v_source_access_right, v_authors, v_programming_languages, v_supported_platforms, v_resource_type, v_resource_subtype, v_repository_url, v_documentation_url, v_distributions, v_function, v_time_domain, v_representation_level, v_turbine_representation, v_location, v_input_description, v_output_description, field, field_default.
  repeat match goal with |- context [g1 ?k] => rewrite (H k) by in_list end.
  reflexivity.
Qed.

Lemma lookup_app k x y :
  lookup k (x ++ y) = match lookup k x with Some v => Some v | None => lookup k y end.
Proof.
  induction x as [|[k0 v0] x IH]; simpl; auto.
  destruct (String.eqb k k0); auto.
Qed.

Lemma lookup_absent k y : (forall kv, In kv y -> fst kv <> k) -> lookup k y = None.
Proof.
  induction y as [|[k0 v0] y IH]; intro H; simpl; auto.
  destruct (String.eqb_spec k k0) as [->|]; [exfalso; exact (H _ (or_introl eq_refl) eq_refl)|].
  apply IH; intros kv Hkv; apply H; right; exact Hkv.
Qed.

(** C9: keys that are not fields of the schema are ignored: added to a
    valid input (after or before its entries) they change nothing, no error
    is reported and the output record is the same. *)
Theorem extra_keys_ignored (raw extra : dict) (r : t) :
  model_validate raw = Ok r ->
  (forall kv, In kv extra -> ~ In (fst kv) fields) ->
  model_validate (raw ++ extra) = Ok r /\ model_validate (extra ++ raw) = Ok r.
Proof.
  unfold model_validate; intros H Hx.
  assert (Habs : forall k, In k fields -> lookup k extra = None).
  { intros k Hk; apply lookup_absent; intros kv Hkv E; subst k; exact (Hx kv Hkv Hk). }
  split; rewrite <- H; apply validate_fields_ext; intros k Hk; unfold getter;
    rewrite lookup_app, (Habs k Hk); [destruct (lookup k raw); reflexivity | reflexivity].
Qed.

Lemma extra_keys_ignored_witness :
  model_validate (Samples.raw_doc ++ Samples.extras) = Ok Samples.doc_record
  /\ model_validate (Samples.extras ++ Samples.raw_doc) = Ok Samples.doc_record.
Proof.
  apply extra_keys_ignored; [vm_compute; reflexivity|].
  intros kv Hkv; cbn in Hkv; destruct Hkv as [<-|[<-|[]]]; cbn; intuition discriminate.
Defined.

(** ** C10 *)

Lemma pair_in_errs get k fes e :
  In (k, fes) (field_errors get) -> In e fes -> In e (errs (validate_fields get)).
Proof.
  intros Hk He; rewrite errs_validate_fields, in_concat.
  exists fes; split; auto. apply in_map_iff; exists (k, fes); auto.
Qed.

(** An error located at field [k] comes from the validator of [k]. *)
Lemma error_at_field get k e :
  In e (errs (validate_fields get)) -> hd_error (loc e) = Some (LKey k) ->
  exists fes, In (k, fes) (field_errors get) /\ In e fes.
Proof.
  intros He Hh; rewrite errs_validate_fields, in_concat in He.
  destruct He as (fes & Hfes & He); apply in_map_iff in Hfes as ([k' fes'] & <- & Hin).
  destruct (field_errors_loc _ _ _ _ Hin He) as (l & Hl).
  rewrite Hl in Hh; injection Hh as ->; eauto.
Qed.

(** A null value in a field that is not nullable is a type error. *)
Lemma null_field_error get k :
  In k fields -> k <> "turbine_representation" -> k <> "location" -> get k = Some VNone ->
  exists kd, In (k, [mkerr [LKey k] kd]) (field_errors get) /\ kd <> Missing.
Proof.
  intros Hk Ht Hl Hg; unfold fields in Hk; cbn [In] in Hk.
  repeat destruct Hk as [Hk|Hk]; try contradiction; subst k; try (now exfalso);
    (eexists; split;
    [ unfold field_errors, v_id, v_name, v_description, v_latest_release_version, v_latest_release_date, v_license, v_source_access_right, v_authors, v_programming_languages, v_supported_platforms, v_resource_type, v_resource_subtype, v_repository_url, v_documentation_url, v_distributions, v_function, v_time_domain, v_representation_level, v_turbine_representation, v_location, v_input_description, v_output_description, field, field_default; rewrite Hg; cbn [In];
      repeat (solve [left; reflexivity] || right)
    | discriminate ]).
Qed.

Lemma assoc_unique {A B} (l : list (A * B)) k x y :
  NoDup (map fst l) -> In (k, x) l -> In (k, y) l -> x = y.
Proof.
  induction l as [|[k0 v0] l IH]; simpl; [tauto|].
  intros Hnd; inversion Hnd as [|? ? Hn Hnd']; subst.
  intros [E1|H1] [E2|H2].
  - congruence.
  - injection E1 as -> ->; exfalso; apply Hn; apply (in_map fst _ (k, y) H2).
  - injection E2 as -> ->; exfalso; apply Hn; apply (in_map fst _ (k, x) H1).
  - exact (IH Hnd' H1 H2).
Qed.

Lemma fields_nodup : NoDup fields.
Proof. unfold fields; repeat constructor; cbn [In]; intuition discriminate. Qed.

(** When field [k] reports the single error [e0], [e0] is the only error of
    the document located at [k]. *)
Lemma only_error_at get k e0 :
  In (k, [e0]) (field_errors get) ->
  forall e, In e (errs (validate_fields get)) -> hd_error (loc e) = Some (LKey k) -> e = e0.
Proof.
  intros Hk e He Hh; destruct (error_at_field _ _ _ He Hh) as (fes & Hin & Hfes).
  assert (Hnd : NoDup (map fst (field_errors get))) by (rewrite field_errors_keys; exact fields_nodup).
  rewrite (assoc_unique _ _ _ _ Hnd Hin Hk) in Hfes; destruct Hfes as [<-|[]]; reflexivity.
Qed.

(** A null value in a [str] field is a [string_type] error. *)
Lemma null_text_field_error get k :
  In k ["id"; "name"; "description"; "latest_release_version"; "license";
        "repository_url"; "documentation_url"; "function";
        "input_description"; "output_description"] ->
  get k = Some VNone -> In (k, [mkerr [LKey k] StringType]) (field_errors get).
Proof.
  intros Hk Hg; cbn [In] in Hk.
  repeat destruct Hk as [Hk|Hk]; try contradiction; subst k;
    unfold field_errors, v_id, v_name, v_description, v_latest_release_version, v_latest_release_date, v_license, v_source_access_right, v_authors, v_programming_languages, v_supported_platforms, v_resource_type, v_resource_subtype, v_repository_url, v_documentation_url, v_distributions, v_function, v_time_domain, v_representation_level, v_turbine_representation, v_location, v_input_description, v_output_description, field, field_default; rewrite Hg; cbn [In];
    repeat (solve [left; reflexivity] || right).
Qed.

(** C10: a null value is not an absent key.  Every required [str] field
    (license, id, name, ...) given null is reported with a [string_type]
    error, the only error located at that field, so never with a [missing]
    error there; every field but [turbine_representation] and [location]
    rejects null with a single error at the field that is not [missing];
    those two accept null. *)
Theorem null_is_not_absence (raw : dict) :
  (forall k, In k ["id"; "name"; "description"; "latest_release_version"; "license";
                   "repository_url"; "documentation_url"; "function";
                   "input_description"; "output_description"] ->
   lookup k raw = Some VNone ->
   exists es, model_validate raw = Err es
     /\ In (mkerr [LKey k] StringType) es
     /\ ~ In (mkerr [LKey k] Missing) es
     /\ (forall e, In e es -> hd_error (loc e) = Some (LKey k) -> e = mkerr [LKey k] StringType))
  /\ (forall k, In k fields -> k <> "turbine_representation" -> k <> "location" ->
      lookup k raw = Some VNone ->
      exists es kd, model_validate raw = Err es /\ In (mkerr [LKey k] kd) es /\ kd <> Missing
        /\ ~ In (mkerr [LKey k] Missing) es
        /\ (forall e, In e es -> hd_error (loc e) = Some (LKey k) -> e = mkerr [LKey k] kd))
  /\ (forall k, k = "turbine_representation" \/ k = "location" -> lookup k raw = Some VNone ->
      forall e, In e (errs (model_validate raw)) -> hd_error (loc e) <> Some (LKey k)).
Proof.
  unfold model_validate; split; [|split].
  - intros k Hk Hg.
    pose proof (null_text_field_error (getter raw) k Hk Hg) as Hp.
    destruct (in_errs_err _ _ (pair_in_errs _ _ _ _ Hp (or_introl eq_refl))) as (es & E & Hes).
    assert (Hu : forall e, In e es -> hd_error (loc e) = Some (LKey k) -> e = mkerr [LKey k] StringType)
      by (intros e He; apply (only_error_at _ _ _ Hp); rewrite E; exact He).
    exists es; split; [exact E|]; split; [exact Hes|]; split; [|exact Hu].
    intro Hm; specialize (Hu _ Hm eq_refl); discriminate Hu.
  - intros k Hk Ht Hl Hg.
    destruct (null_field_error (getter raw) k Hk Ht Hl Hg) as (kd & Hp & Hkd).
    destruct (in_errs_err _ _ (pair_in_errs _ _ _ _ Hp (or_introl eq_refl))) as (es & E & Hes).
    assert (Hu : forall e, In e es -> hd_error (loc e) = Some (LKey k) -> e = mkerr [LKey k] kd)
      by (intros e He; apply (only_error_at _ _ _ Hp); rewrite E; exact He).
    exists es, kd; split; [exact E|]; split; [exact Hes|]; split; [exact Hkd|]; split; [|exact Hu].
    intro Hm; specialize (Hu _ Hm eq_refl); injection Hu as Hu; exact (Hkd (eq_sym Hu)).
  - intros k [-> | ->] Hnull; apply no_error_at; intros fes Hin; field_pair Hin;
      apply nullable_field_errs; exact Hnull.
Qed.

Lemma null_is_not_absence_witness :
  (exists es, model_validate Samples.raw_null_license = Err es
     /\ In (mkerr [LKey "license"] StringType) es
     /\ ~ In (mkerr [LKey "license"] Missing) es
     /\ (forall e, In e es -> hd_error (loc e) = Some (LKey "license") ->
         e = mkerr [LKey "license"] StringType))
  /\ (exists es kd, model_validate (set_key "time_domain" VNone Samples.raw_doc) = Err es
     /\ In (mkerr [LKey "time_domain"] kd) es /\ kd <> Missing
     /\ ~ In (mkerr [LKey "time_domain"] Missing) es
     /\ (forall e, In e es -> hd_error (loc e) = Some (LKey "time_domain") ->
         e = mkerr [LKey "time_domain"] kd))
  /\ (forall e, In e (errs (model_validate Samples.raw_doc)) ->
      hd_error (loc e) <> Some (LKey "location")).
Proof.
  split; [apply (proj1 (null_is_not_absence Samples.raw_null_license) "license");
          [cbn [In]; repeat (solve [left; reflexivity] || right) | reflexivity]|].
  split; [apply (proj1 (proj2 (null_is_not_absence (set_key "time_domain" VNone Samples.raw_doc)))
                   "time_domain");
          [in_list | discriminate | discriminate | vm_compute; reflexivity]|].
  apply (proj2 (proj2 (null_is_not_absence Samples.raw_doc)) "location");
    [right; reflexivity | reflexivity].
Defined.

End Doc.

(** * Further properties of the models *)

Module Extra.
Import WindEnergySoftwareMetadataDocument Doc.

Lemma prefix_ok_inv {A} p (r : result A) a : prefix p r = Ok a -> r = Ok a.
Proof. destruct r; simpl; congruence. Qed.

Lemma v_str_ok_inv v s : v_str v = Ok s -> v = VStr s.
Proof. destruct v; simpl; unfold fail; congruence. Qed.

Lemma v_items_ok_inv {A} (f : value -> result A) vs : forall i l,
  v_items f i vs = Ok l -> Forall2 (fun v a => f v = Ok a) vs l.
Proof.
  induction vs as [|v vs IH]; intros i l H; cbn [v_items] in H.
  - injection H as <-; constructor.
  - apply ap_ok_inv in H as (g & l' & Hg & Hl' & ->).
    apply ap_ok_inv in Hg as (c & a & Hc & Ha & ->).
    injection Hc as <-; apply prefix_ok_inv in Ha.
    constructor; [exact Ha | exact (IH _ _ Hl')].
Qed.

Lemma v_list_str_ok_inv v l : v_list v_str v = Ok l -> v = VList (map VStr l).
Proof.
  destruct v; simpl; unfold fail; try discriminate.
  intro H; apply v_items_ok_inv in H; f_equal.
  induction H as [|v s vs l Hv _ IH]; simpl; auto.
  apply v_str_ok_inv in Hv; congruence.
Qed.

Lemma v_nullable_literal_ok_inv L v o :
  v_nullable (v_literal L) v = Ok o -> v = opt_value o.
Proof.
  destruct v as [| | |s| | |]; simpl; unfold fail; try (destruct (existsb _ _)); simpl;
    intro H; try discriminate H; injection H as <-; reflexivity.
Qed.

(** ** Enumerated fields of a validated document *)

(** The enumerated fields of every validated document hold one of their
    declared values; [resource_type] is always ["software"]. *)
Theorem validated_enum_fields_in_range (raw : dict) (r : t) :
  model_validate raw = Ok r ->
  In (source_access_right r) ["open"; "closed"]
  /\ resource_type r = "software"
  /\ In (resource_subtype r) ["model"; "analysis"; "optimisation"]
  /\ In (time_domain r) ["steady"; "dynamic"]
  /\ In (representation_level r) ["wind_farm"; "turbine"]
  /\ (forall s, turbine_representation r = Some s ->
      In s ["actuator"; "bem"; "vortex_method"; "geometry_resolved"])
  /\ (forall s, location r = Some s -> In s ["onshore"; "offshore"]).
Proof.
  unfold model_validate; intro H.
  pose proof (validate_fields_ok _ _ H) as Hp; decompose [and] Hp; clear Hp.
  unfold v_source_access_right, v_resource_type, v_resource_subtype, v_time_domain,
    v_representation_level, v_turbine_representation, v_location in *.
  repeat split;
    repeat match goal with
    | Hf : field _ (v_literal _) _ = Ok _ |- _ => apply field_literal_in in Hf
    | Hf : field _ (v_nullable (v_literal _)) _ = Ok _ |- _ =>
        pose proof (field_nullable_in _ _ _ _ Hf); clear Hf
    | Hf : field_default _ _ (v_literal _) _ = Ok _ |- _ =>
        apply field_default_literal_in in Hf; destruct Hf as [Hf|[Hf|[]]]
    end; auto.
Qed.

Lemma validated_enum_fields_in_range_witness :
  In (source_access_right Samples.doc_record) ["open"; "closed"]
  /\ resource_type Samples.doc_record = "software".
Proof.
  destruct (validated_enum_fields_in_range Samples.raw_doc Samples.doc_record
              ltac:(vm_compute; reflexivity)) as (H1 & H2 & _).
  exact (conj H1 H2).
Defined.

(** ** Values kept as given *)

(** Validation keeps the text, enumerated, nullable and list-of-text fields
    exactly as given: each of them is dumped back to the input's value. *)
Theorem validated_values_preserved (raw : dict) (r : t) :
  model_validate raw = Ok r ->
  forall k, In k ["id"; "name"; "description"; "latest_release_version"; "license";
                  "source_access_right"; "programming_languages"; "supported_platforms";
                  "resource_subtype"; "repository_url"; "documentation_url"; "function";
                  "time_domain"; "representation_level"; "turbine_representation";
                  "location"; "input_description"; "output_description"] ->
  lookup k raw = lookup k (dump r).
Proof.
  unfold model_validate; intro H.
  pose proof (validate_fields_ok _ _ H) as Hp; decompose [and] Hp; clear Hp.
  unfold v_id, v_name, v_description, v_latest_release_version, v_license,
    v_source_access_right, v_programming_languages, v_supported_platforms,
    v_resource_subtype, v_repository_url, v_documentation_url, v_function,
    v_time_domain, v_representation_level, v_turbine_representation, v_location,
    v_input_description, v_output_description in *.
  repeat match goal with
  | Hf : field _ _ _ = Ok _ |- _ =>
      apply field_ok_inv in Hf; destruct Hf as (? & ? & Hf);
      lazymatch type of Hf with
      | v_str _ = _ => apply v_str_ok_inv in Hf
      | v_list v_str _ = _ => apply v_list_str_ok_inv in Hf
      | v_nullable _ _ = _ => apply v_nullable_literal_ok_inv in Hf
      | v_literal _ _ = _ => apply v_literal_ok_inv in Hf; destruct Hf as [Hf _]
      end;
      subst
  end.
  intros k Hk; cbn [In] in Hk.
  repeat destruct Hk as [Hk|Hk]; try contradiction; subst k;
    match goal with Hg : getter raw ?k = Some _ |- lookup ?k raw = _ =>
      rewrite <- getter_lookup, Hg; reflexivity end.
Qed.

Lemma validated_values_preserved_witness :
  lookup "programming_languages" Samples.raw_doc
  = lookup "programming_languages" (dump Samples.doc_record).
Proof.
  apply (validated_values_preserved Samples.raw_doc Samples.doc_record
           ltac:(vm_compute; reflexivity)).
  cbn; tauto.
Defined.
(** ** Nested lists *)

(** The [authors] and [distributions] of a validated document are the
    validated elements of the input lists, one per element, in order. *)
Theorem validated_nested_lists (raw : dict) (r : t) :
  model_validate raw = Ok r ->
  (exists vs, lookup "authors" raw = Some (VList vs)
     /\ Forall2 (fun v a => Author.validate v = Ok a) vs (authors r))
  /\ (exists vs, lookup "distributions" raw = Some (VList vs)
     /\ Forall2 (fun v d => Distribution.validate v = Ok d) vs (distributions r)).
Proof.
  unfold model_validate; intro H.
  pose proof (validate_fields_ok _ _ H) as Hp; decompose [and] Hp; clear Hp.
  unfold v_authors, v_distributions in *.
  split;
    match goal with
    | Hf : field ?k (v_list _) _ = Ok _ |- exists vs, lookup ?k raw = _ /\ _ =>
        apply field_ok_inv in Hf; destruct Hf as (v & Hg & Hf);
        destruct v; simpl in Hf; try discriminate;
        exists l; split; [exact Hg | exact (v_items_ok_inv _ _ _ _ Hf)]
    end.
Qed.

Lemma validated_nested_lists_witness :
  exists vs, lookup "authors" Samples.raw_doc = Some (VList vs)
    /\ Forall2 (fun v a => Author.validate v = Ok a) vs (authors Samples.doc_record).
Proof.
  exact (proj1 (validated_nested_lists Samples.raw_doc Samples.doc_record
                  ltac:(vm_compute; reflexivity))).
Defined.

(** ** Type errors of list fields and of their elements *)

Lemma field_value_errs {A} k (f : value -> result A) get v :
  get k = Some v -> errs (field k f get) = map (prefix_err (LKey k)) (errs (f v)).
Proof. intro H; rewrite (field_present _ _ _ _ H), errs_prefix; reflexivity. Qed.

(** A list field given anything but a list (a single string, a dict, null)
    is a [list_type] error at the field; an element of [authors] or
    [distributions] that is not a dict is a [model_type] error at
    [field, index]. *)
Theorem list_and_element_type_errors (raw : dict) :
  (forall k v, In k ["authors"; "programming_languages"; "supported_platforms";
                     "distributions"] ->
     lookup k raw = Some v -> (forall l, v <> VList l) ->
     exists es, model_validate raw = Err es /\ In (mkerr [LKey k] ListType) es)
  /\ (forall vs n v, lookup "authors" raw = Some (VList vs) -> nth_error vs n = Some v ->
      (forall kv, v <> VDict kv) ->
      exists es, model_validate raw = Err es /\ In (mkerr [LKey "authors"; LIdx n] ModelType) es)
  /\ (forall vs n v, lookup "distributions" raw = Some (VList vs) -> nth_error vs n = Some v ->
      (forall kv, v <> VDict kv) ->
      exists es, model_validate raw = Err es
        /\ In (mkerr [LKey "distributions"; LIdx n] ModelType) es).
Proof.
  unfold model_validate; split; [|split].
  - intros k v Hk Hg Hv.
    assert (Hl : forall A (f : value -> result A), v_list f v = fail ListType)
      by (intros A f; destruct v; auto; exfalso; exact (Hv l eq_refl)).
    assert (Hin : In (mkerr [LKey k] ListType) (errs (validate_fields (getter raw)))).
    { rewrite errs_validate_fields; cbn [In] in Hk.
      repeat destruct Hk as [Hk|Hk]; try contradiction; subst k;
        unfold field_errors, v_authors, v_programming_languages, v_supported_platforms,
          v_distributions;
        rewrite (field_present _ _ _ _ Hg), Hl; in_errs. }
    destruct (in_errs_err _ _ Hin) as (es & E & Hes); exact (ex_intro _ es (conj E Hes)).
  - intros vs n v Hl Hn Hv.
    assert (Ha : Author.validate v = fail ModelType)
      by (destruct v; auto; exfalso; exact (Hv kv eq_refl)).
    assert (Hin : In (mkerr [LKey "authors"; LIdx n] ModelType)
                     (errs (validate_fields (getter raw)))).
    { apply (pair_in_errs _ "authors" (errs (v_authors (getter raw)))); [in_list|].
      unfold v_authors; rewrite (field_value_errs _ _ _ _ Hl).
      apply (in_map (prefix_err (LKey "authors")) _ (prefix_err (LIdx (0 + n)) (mkerr [] ModelType))).
      apply (v_items_elem_errs _ _ 0 n v); [exact Hn | rewrite Ha; left; reflexivity]. }
    destruct (in_errs_err _ _ Hin) as (es & E & Hes); exact (ex_intro _ es (conj E Hes)).
  - intros vs n v Hl Hn Hv.
    assert (Ha : Distribution.validate v = fail ModelType)
      by (destruct v; auto; exfalso; exact (Hv kv eq_refl)).
    assert (Hin : In (mkerr [LKey "distributions"; LIdx n] ModelType)
                     (errs (validate_fields (getter raw)))).
    { apply (pair_in_errs _ "distributions" (errs (v_distributions (getter raw)))); [in_list|].
      unfold v_distributions; rewrite (field_value_errs _ _ _ _ Hl).
      apply (in_map (prefix_err (LKey "distributions")) _
               (prefix_err (LIdx (0 + n)) (mkerr [] ModelType))).
      apply (v_items_elem_errs _ _ 0 n v); [exact Hn | rewrite Ha; left; reflexivity]. }
    destruct (in_errs_err _ _ Hin) as (es & E & Hes); exact (ex_intro _ es (conj E Hes)).
Qed.

Lemma list_and_element_type_errors_witness :
  (exists es, model_validate (set_key "programming_languages" (VStr "Python") Samples.raw_doc)
                = Err es
     /\ In (mkerr [LKey "programming_languages"] ListType) es)
  /\ (exists es, model_validate (set_key "authors" (VList [VStr "Ada"]) Samples.raw_doc) = Err es
     /\ In (mkerr [LKey "authors"; LIdx 0] ModelType) es).
Proof.
  split.
  - apply (proj1 (list_and_element_type_errors _) _ (VStr "Python")); [in_list|reflexivity|].
    intros l; discriminate.
  - apply (proj1 (proj2 (list_and_element_type_errors _)) [VStr "Ada"] 0 (VStr "Ada"));
      [reflexivity|reflexivity|intros kv; discriminate].
Defined.

(** ** The nested models *)

(** [Author] accepts exactly the dicts whose [name], [orcid] and
    [affiliation] are strings, and builds the record from them;
    [Distribution] likewise with [distribution_platform] and [url]. *)
Theorem nested_models_accept (v : value) (a : Author.t) (d : Distribution.t) :
  (Author.validate v = Ok a <->
   exists kv, v = VDict kv
     /\ lookup "name" kv = Some (VStr (Author.name a))
     /\ lookup "orcid" kv = Some (VStr (Author.orcid a))
     /\ lookup "affiliation" kv = Some (VStr (Author.affiliation a)))
  /\ (Distribution.validate v = Ok d <->
   exists kv, v = VDict kv
     /\ lookup "distribution_platform" kv = Some (VStr (Distribution.distribution_platform d))
     /\ lookup "url" kv = Some (VStr (Distribution.url d))).
Proof.
  split; split.
  - destruct v; simpl; unfold fail; try discriminate.
    unfold Author.validate_fields; intro H; inv_ap.
    repeat match goal with
    | Hf : field _ v_str _ = Ok _ |- _ =>
        apply field_ok_inv in Hf; destruct Hf as (? & ? & Hf); apply v_str_ok_inv in Hf; subst
    end.
    exists kv; simpl; auto.
  - intros (kv & -> & H1 & H2 & H3); simpl; unfold Author.validate_fields, field, getter.
    rewrite H1, H2, H3; destruct a; reflexivity.
  - destruct v; simpl; unfold fail; try discriminate.
    unfold Distribution.validate_fields; intro H; inv_ap.
    repeat match goal with
    | Hf : field _ v_str _ = Ok _ |- _ =>
        apply field_ok_inv in Hf; destruct Hf as (? & ? & Hf); apply v_str_ok_inv in Hf; subst
    end.
    exists kv; simpl; auto.
  - intros (kv & -> & H1 & H2); simpl; unfold Distribution.validate_fields, field, getter.
    rewrite H1, H2; destruct d; reflexivity.
Qed.

Lemma nested_models_accept_witness :
  Author.validate Samples.author1 = Ok (Author.mk "Ada" "0000-0002-1825-0097" "DTU").
Proof.
  apply (proj2 (proj1 (nested_models_accept Samples.author1
                         (Author.mk "Ada" "0000-0002-1825-0097" "DTU")
                         (Distribution.mk "" "")))).
  exists [("name", VStr "Ada"); ("orcid", VStr "0000-0002-1825-0097");
          ("affiliation", VStr "DTU")].
  repeat split.
Defined.

Lemma lookup_app_absent k kv extra :
  (forall p, In p extra -> ~ In (fst p) [k]) -> lookup k (kv ++ extra) = lookup k kv.
Proof.
  intro H; rewrite lookup_app; destruct (lookup k kv); auto.
  apply lookup_absent; intros p Hp E; apply (H p Hp); left; auto.
Qed.

(** Keys that are not fields of [Author] (resp. [Distribution]) are ignored
    in a nested dict: adding them changes nothing, errors included. *)
Theorem nested_extra_keys_ignored (kv extra : dict) :
  ((forall p, In p extra -> ~ In (fst p) ["name"; "orcid"; "affiliation"]) ->
   Author.validate (VDict (kv ++ extra)) = Author.validate (VDict kv))
  /\ ((forall p, In p extra -> ~ In (fst p) ["distribution_platform"; "url"]) ->
   Distribution.validate (VDict (kv ++ extra)) = Distribution.validate (VDict kv)).
Proof.
  split; intro H; simpl;
    unfold Author.validate_fields, Distribution.validate_fields, field, getter;
    repeat match goal with |- context [lookup ?k (kv ++ extra)] =>
      rewrite (lookup_app_absent k kv extra)
        by (intros p Hp Hk; apply (H p Hp); destruct Hk as [<-|[]]; cbn; tauto)
    end; reflexivity.
Qed.

Lemma nested_extra_keys_ignored_witness :
  Author.validate (VDict ([("name", VStr "Ada"); ("orcid", VStr "x"); ("affiliation", VStr "y")]
                          ++ [("email", VStr "a@b.c")]))
  = Author.validate (VDict [("name", VStr "Ada"); ("orcid", VStr "x"); ("affiliation", VStr "y")]).
Proof.
  apply (proj1 (nested_extra_keys_ignored _ _)).
  intros p [<-|[]]; cbn; intuition discriminate.
Defined.

(** A key missing from the dict of element [n] of [authors] (resp.
    [distributions]) is reported as a [missing] error at
    [authors, n, key]. *)
Theorem nested_missing_keys (raw : dict) :
  (forall vs n kv k, lookup "authors" raw = Some (VList vs) ->
     nth_error vs n = Some (VDict kv) -> In k ["name"; "orcid"; "affiliation"] ->
     lookup k kv = None ->
     exists es, model_validate raw = Err es
       /\ In (mkerr [LKey "authors"; LIdx n; LKey k] Missing) es)
  /\ (forall vs n kv k, lookup "distributions" raw = Some (VList vs) ->
     nth_error vs n = Some (VDict kv) -> In k ["distribution_platform"; "url"] ->
     lookup k kv = None ->
     exists es, model_validate raw = Err es
       /\ In (mkerr [LKey "distributions"; LIdx n; LKey k] Missing) es).
Proof.
  unfold model_validate; split; intros vs n kv k Hl Hn Hk Hm.
  - assert (Ha : In (mkerr [LKey k] Missing) (errs (Author.validate (VDict kv)))).
    { simpl; unfold Author.validate_fields; rewrite !errs_ap.
      cbn [In] in Hk; repeat destruct Hk as [Hk|Hk]; try contradiction; subst k;
        rewrite (field_missing _ _ (getter kv) Hm); rewrite !in_app_iff; simpl; tauto. }
    assert (Hin : In (mkerr [LKey "authors"; LIdx n; LKey k] Missing)
                     (errs (validate_fields (getter raw)))).
    { apply (pair_in_errs _ "authors" (errs (v_authors (getter raw)))); [in_list|].
      unfold v_authors; rewrite (field_value_errs _ _ _ _ Hl).
      apply (in_map (prefix_err (LKey "authors")) _
               (prefix_err (LIdx (0 + n)) (mkerr [LKey k] Missing))).
      exact (v_items_elem_errs _ _ 0 n _ _ Hn Ha). }
    destruct (in_errs_err _ _ Hin) as (es & E & Hes); exact (ex_intro _ es (conj E Hes)).
  - assert (Ha : In (mkerr [LKey k] Missing) (errs (Distribution.validate (VDict kv)))).
    { simpl; unfold Distribution.validate_fields; rewrite !errs_ap.
      cbn [In] in Hk; repeat destruct Hk as [Hk|Hk]; try contradiction; subst k;
        rewrite (field_missing _ _ (getter kv) Hm); rewrite !in_app_iff; simpl; tauto. }
    assert (Hin : In (mkerr [LKey "distributions"; LIdx n; LKey k] Missing)
                     (errs (validate_fields (getter raw)))).
    { apply (pair_in_errs _ "distributions" (errs (v_distributions (getter raw)))); [in_list|].
      unfold v_distributions; rewrite (field_value_errs _ _ _ _ Hl).
      apply (in_map (prefix_err (LKey "distributions")) _
               (prefix_err (LIdx (0 + n)) (mkerr [LKey k] Missing))).
      exact (v_items_elem_errs _ _ 0 n _ _ Hn Ha). }
    destruct (in_errs_err _ _ Hin) as (es & E & Hes); exact (ex_intro _ es (conj E Hes)).
Qed.

Lemma nested_missing_keys_witness :
  exists es, model_validate Samples.raw_bad_elements = Err es
    /\ In (mkerr [LKey "authors"; LIdx 2; LKey "orcid"] Missing) es.
Proof.
  apply (proj1 (nested_missing_keys Samples.raw_bad_elements)
           [VDict [("name", VInt 7); ("orcid", VStr "a"); ("affiliation", VStr "b")];
            Samples.author1;
            VDict [("name", VStr "Bo"); ("affiliation", VStr "c")]]
           2 [("name", VStr "Bo"); ("affiliation", VStr "c")] "orcid");
    [reflexivity | reflexivity | cbn; tauto | reflexivity].
Defined.

(** ** Where errors are located *)

(** Every error of a failed validation is located under one of the schema's
    field names, never under an unknown key of the input. *)
Theorem errors_located_at_fields (raw : dict) :
  forall e, In e (errs (model_validate raw)) ->
  exists k l, In k fields /\ loc e = LKey k :: l.
Proof.
  unfold model_validate; intros e He; rewrite errs_validate_fields, in_concat in He.
  destruct He as (fes & Hfes & He); apply in_map_iff in Hfes as ([k fes'] & <- & Hin).
  destruct (field_errors_loc _ _ _ _ Hin He) as (l & Hl).
  exists k, l; split; [|exact Hl].
  rewrite <- (field_errors_keys (getter raw)); apply (in_map fst _ (k, fes') Hin).
Qed.

Lemma errors_located_at_fields_witness :
  exists k l, In k fields
    /\ loc (mkerr [LKey "authors"; LIdx 0; LKey "name"] StringType) = LKey k :: l.
Proof.
  apply (errors_located_at_fields Samples.raw_bad_elements).
  vm_compute; left; reflexivity.
Defined.

(** ** The release date *)

Lemma digits_in_minus acc l : In "-"%char l -> digits acc l = None.
Proof.
  revert acc; induction l as [|c l IH]; intros acc H; [destruct H|].
  destruct H as [->|H]; [reflexivity|]; simpl; destruct (digit c); [apply IH, H|reflexivity].
Qed.

Lemma date_prefix_shape cs d :
  parse_date_prefix cs = Some d -> exists c0 c1 c2 c3 r, cs = c0 :: c1 :: c2 :: c3 :: "-"%char :: r.
Proof.
  intro H; destruct cs as [|c0 [|c1 [|c2 [|c3 [|c4 [|c5 [|c6 [|c7 [|c8 [|c9 r]]]]]]]]]];
    try discriminate H.
  cbn [parse_date_prefix] in H; destruct (Ascii.eqb c4 "-") eqn:E; [|discriminate H].
  apply Ascii.eqb_eq in E; subst c4; do 5 eexists; reflexivity.
Qed.

Lemma int_parse_minus4 cs : nth_error cs 4 = Some "-"%char -> int_parse cs = None.
Proof.
  intro H; destruct cs as [|c0 [|c1 [|c2 [|c3 [|c4 r]]]]]; try discriminate H.
  injection H as ->; unfold int_parse; destruct (Ascii.eqb c0 "-"); cbv beta iota zeta;
    rewrite digits_in_minus by (cbn [In]; repeat (solve [left; reflexivity] || right));
    reflexivity.
Qed.

Lemma date_prefix_not_int cs d : parse_date_prefix cs = Some d -> int_parse cs = None.
Proof.
  intro H; destruct (date_prefix_shape _ _ H) as (c0 & c1 & c2 & c3 & r & ->).
  apply int_parse_minus4; reflexivity.
Qed.

Lemma int_parse_no_date cs n : int_parse cs = Some n -> parse_date_prefix cs = None.
Proof.
  intro H; destruct (parse_date_prefix cs) eqn:E; [|reflexivity].
  rewrite (date_prefix_not_int _ _ E) in H; discriminate H.
Qed.

Lemma parse_date_prefix_app cs x :
  (10 <= length cs)%nat -> parse_date_prefix (cs ++ x) = parse_date_prefix cs.
Proof.
  intro H; destruct cs as [|c0 [|c1 [|c2 [|c3 [|c4 [|c5 [|c6 [|c7 [|c8 [|c9 r]]]]]]]]]];
    cbn [length] in H; try lia; reflexivity.
Qed.

Lemma no_digit_not_parsed cs :
  (forall c, In c cs -> digit c = None) -> parse_date_prefix cs = None /\ int_parse cs = None.
Proof.
  intro H; split.
  - destruct cs as [|c0 [|c1 [|c2 [|c3 [|c4 [|c5 [|c6 [|c7 [|c8 [|c9 r]]]]]]]]]];
      try reflexivity.
    cbn [parse_date_prefix]; destruct (_ && _); [|reflexivity].
    cbn [digits]; rewrite (H c0) by (left; reflexivity); reflexivity.
  - destruct cs as [|c r]; [reflexivity|]; unfold int_parse.
    destruct (Ascii.eqb c "-"); cbv beta iota zeta.
    + destruct r as [|c' r]; [reflexivity|]; cbn [digits].
      rewrite (H c') by (right; left; reflexivity); reflexivity.
    + cbn [digits]; rewrite (H c) by (left; reflexivity); reflexivity.
Qed.

(** A string made of an ISO date, a [T], [t], space or [_] separator and a
    time validates to that date when the time is midnight (any offset, any
    fraction of zeros), fails with [date_from_datetime_inexact] when it is
    not, and with [date_from_datetime_parsing] when the time does not
    parse. *)
Theorem datetime_string_date (cs rest : list ascii) (sep : ascii) (d : date) :
  parse_iso_date (string_of_list_ascii cs) = Some d ->
  In sep ["T"; "t"; " "; "_"]%char ->
  v_date (VStr (string_of_list_ascii (cs ++ sep :: rest)))
  = match parse_time rest with
    | Some true => Ok d
    | Some false => fail DateFromDatetimeInexact
    | None => fail DateFromDatetimeParsing
    end.
Proof.
  intros Hd Hsep; unfold parse_iso_date in Hd; rewrite list_ascii_of_string_of_list_ascii in Hd.
  destruct (length cs =? 10)%nat eqn:Hl; [|discriminate Hd]; apply Nat.eqb_eq in Hl.
  cbv beta iota zeta delta [v_date parse_date parse_datetime parse_iso_date parse_datetime_rfc3339].
  rewrite list_ascii_of_string_of_list_ascii, length_app; cbn [length].
  replace (length cs + S (length rest) =? 10)%nat with false
    by (symmetry; apply Nat.eqb_neq; lia).
  rewrite (date_prefix_not_int (cs ++ sep :: rest) d)
    by (rewrite parse_date_prefix_app by lia; exact Hd).
  rewrite parse_date_prefix_app, Hd by lia.
  replace (skipn 10 (cs ++ sep :: rest)) with (sep :: rest)
    by (rewrite <- Hl, skipn_app, skipn_all, Nat.sub_diag; reflexivity).
  replace (existsb (Ascii.eqb sep) ["T"; "t"; " "; "_"]%char) with true
    by (destruct Hsep as [<-|[<-|[<-|[<-|[]]]]]; reflexivity).
  destruct (parse_time rest) as [[]|]; reflexivity.
Qed.

Lemma datetime_string_date_witness :
  v_date (VStr (string_of_list_ascii
                  (list_ascii_of_string "2024-02-29" ++ "T"%char :: list_ascii_of_string "00:00:00Z")))
  = match parse_time (list_ascii_of_string "00:00:00Z") with
    | Some true => Ok (mkdate 2024 2 29)
    | Some false => fail DateFromDatetimeInexact
    | None => fail DateFromDatetimeParsing
    end.
Proof.
  apply (datetime_string_date (list_ascii_of_string "2024-02-29") (list_ascii_of_string "00:00:00Z")
           "T"%char (mkdate 2024 2 29)).
  - vm_compute; reflexivity.
  - left; reflexivity.
Defined.

Lemma date_field_error raw v kd :
  lookup "latest_release_date" raw = Some v -> v_date v = fail kd ->
  exists es, model_validate raw = Err es /\ In (mkerr [LKey "latest_release_date"] kd) es.
Proof.
  intros Hl Hv.
  assert (Hin : In (mkerr [LKey "latest_release_date"] kd) (errs (validate_fields (getter raw)))).
  { apply (pair_in_errs _ "latest_release_date" (errs (v_latest_release_date (getter raw)))); [in_list|].
    unfold v_latest_release_date; rewrite (field_value_errs _ _ _ _ Hl), Hv; left; reflexivity. }
  destruct (in_errs_err _ _ Hin) as (es & E & Hes); exact (ex_intro _ es (conj E Hes)).
Qed.

Lemma unparsed_string_error s :
  parse_date_prefix (list_ascii_of_string s) = None -> int_parse (list_ascii_of_string s) = None ->
  v_date (VStr s) = fail DateFromDatetimeParsing.
Proof.
  intros Hp Hi.
  cbv beta iota zeta delta [v_date parse_date parse_datetime parse_iso_date parse_datetime_rfc3339].
  rewrite Hp, Hi; destruct (_ =? 10)%nat; reflexivity.
Qed.



(** A string of decimal digits (with an optional [-]) is read as the Unix
    timestamp it spells: for timestamps in seconds it validates exactly as
    the integer does, to the same date or with the same error. *)
Theorem digit_string_timestamps (s : string) (n : Z) :
  int_parse (list_ascii_of_string s) = Some n -> (Z.abs n <= 20000000000)%Z ->
  v_date (VStr s) = v_date (VInt n).
Proof.
  intros Hi Hn; pose proof (int_parse_no_date _ _ Hi) as Hp.
  cbv beta iota zeta delta [v_date parse_date parse_datetime parse_iso_date parse_datetime_rfc3339].
  rewrite Hp, Hi.
  unfold date_from_timestamp, datetime_from_timestamp, timestamp_watershed.
  replace (Z.abs n <=? 20000000000)%Z with true by (symmetry; apply Z.leb_le; lia).
  cbn [fst]; destruct (_ =? 10)%nat;
    (destruct (date_from_seconds n); [destruct (n mod 86400 =? 0)%Z|]; reflexivity).
Qed.

Lemma digit_string_timestamps_witness :
  v_date (VStr "20240229") = v_date (VInt 20240229).
Proof. apply digit_string_timestamps; [vm_compute; reflexivity | lia]. Defined.

(** ** The order of the input's keys *)

Lemma lookup_in k l v : lookup k l = Some v -> In (k, v) l.
Proof.
  induction l as [|[k0 v0] l IH]; simpl; [discriminate|].
  destruct (String.eqb_spec k k0) as [->|]; [intro E; injection E as ->; left; reflexivity|].
  intro H; right; exact (IH H).
Qed.

Lemma lookup_none_notin k l v : lookup k l = None -> ~ In (k, v) l.
Proof.
  induction l as [|[k0 v0] l IH]; simpl; [tauto|].
  destruct (String.eqb_spec k k0) as [->|Hne]; [discriminate|].
  intros H [E|Hin]; [injection E as -> ->; apply Hne; reflexivity | exact (IH H Hin)].
Qed.

Lemma nodup_keys_fun (l : dict) k v w :
  NoDup (map fst l) -> In (k, v) l -> In (k, w) l -> v = w.
Proof.
  induction l as [|[k0 v0] l IH]; simpl; [tauto|].
  intros Hnd; inversion Hnd as [|? ? Hn Hnd']; subst.
  intros [E1|H1] [E2|H2].
  - congruence.
  - injection E1 as -> ->; exfalso; apply Hn; apply (in_map fst _ (k, w) H2).
  - injection E2 as -> ->; exfalso; apply Hn; apply (in_map fst _ (k, v) H1).
  - exact (IH Hnd' H1 H2).
Qed.

Lemma lookup_perm l1 l2 k :
  NoDup (map fst l1) -> Permutation l1 l2 -> lookup k l1 = lookup k l2.
Proof.
  intros Hnd Hp.
  assert (Hnd2 : NoDup (map fst l2)) by exact (Permutation_NoDup (Permutation_map fst Hp) Hnd).
  destruct (lookup k l1) as [v|] eqn:E1, (lookup k l2) as [w|] eqn:E2.
  - f_equal; apply (nodup_keys_fun l2 k v w Hnd2);
      [exact (Permutation_in _ Hp (lookup_in _ _ _ E1)) | exact (lookup_in _ _ _ E2)].
  - exfalso; exact (lookup_none_notin _ _ v E2 (Permutation_in _ Hp (lookup_in _ _ _ E1))).
  - exfalso; exact (lookup_none_notin _ _ w E1
                      (Permutation_in _ (Permutation_sym Hp) (lookup_in _ _ _ E2))).
  - reflexivity.
Qed.

(** The order of the keys of the input does not matter: a dict with distinct
    keys validates, with the same record or the same errors in the same
    order, as any reordering of it; likewise for the nested [Author] and
    [Distribution] dicts. *)
Theorem key_order_irrelevant (kv kv' : dict) :
  NoDup (map fst kv) -> Permutation kv kv' ->
  model_validate kv = model_validate kv'
  /\ Author.validate (VDict kv) = Author.validate (VDict kv')
  /\ Distribution.validate (VDict kv) = Distribution.validate (VDict kv').
Proof.
  intros Hnd Hp; split; [|split].
  - unfold model_validate; apply validate_fields_ext; intros k _; exact (lookup_perm _ _ k Hnd Hp).
  - simpl; unfold Author.validate_fields, field, getter.
    rewrite !(lookup_perm kv kv' _ Hnd Hp); reflexivity.
  - simpl; unfold Distribution.validate_fields, field, getter.
    rewrite !(lookup_perm kv kv' _ Hnd Hp); reflexivity.
Qed.

Lemma key_order_irrelevant_witness :
  model_validate Samples.raw_doc = model_validate (rev Samples.raw_doc)
  /\ Author.validate (VDict Samples.raw_doc) = Author.validate (VDict (rev Samples.raw_doc))
  /\ Distribution.validate (VDict Samples.raw_doc)
     = Distribution.validate (VDict (rev Samples.raw_doc)).
Proof.
  apply (key_order_irrelevant Samples.raw_doc (rev Samples.raw_doc)).
  - vm_compute; repeat constructor; cbn; intuition discriminate.
  - apply Permutation_rev.
Defined.

(** ** Type and literal errors of the scalar fields *)

Lemma field_error_in {A} k (f : value -> result A) raw v kd :
  lookup k raw = Some v -> f v = fail kd -> In (mkerr [LKey k] kd) (errs (field k f (getter raw))).
Proof. intros Hl Hf; rewrite (field_value_errs _ _ _ _ Hl), Hf; left; reflexivity. Qed.

Lemma field_default_error_in {A} k (d : A) f raw v kd :
  lookup k raw = Some v -> f v = fail kd ->
  In (mkerr [LKey k] kd) (errs (field_default k d f (getter raw))).
Proof.
  intros Hl Hf; unfold field_default; change (getter raw k) with (lookup k raw).
  rewrite Hl, errs_prefix, Hf; left; reflexivity.
Qed.

Lemma doc_field_error raw k kd :
  (exists fes, In (k, fes) (field_errors (getter raw)) /\ In (mkerr [LKey k] kd) fes) ->
  exists es, model_validate raw = Err es /\ In (mkerr [LKey k] kd) es.
Proof.
  intros (fes & Hk & He).
  destruct (in_errs_err _ _ (pair_in_errs _ _ _ _ Hk He)) as (es & E & Hes).
  exact (ex_intro _ es (conj E Hes)).
Qed.

Lemma v_literal_reject vals v :
  (forall s, v = VStr s -> ~ In s vals) -> v_literal vals v = fail (LiteralError vals).
Proof.
  intro H; destruct v; try reflexivity; simpl.
  destruct (existsb (String.eqb s) vals) eqn:E; [|reflexivity].
  exfalso; apply existsb_exists in E as (x & Hx & Hs); apply String.eqb_eq in Hs; subst x.
  exact (H s eq_refl Hx).
Qed.

Ltac pick_field :=
  unfold field_errors; cbn [In]; repeat (solve [left; reflexivity] || right).

(** The [Literal] fields of the schema with their allowed values, and
    whether [None] is allowed too. *)
Definition literal_fields : list (string * list string * bool) :=
  [("source_access_right", source_access_right_values, false);
   ("resource_type", resource_type_values, false);
   ("resource_subtype", resource_subtype_values, false);
   ("time_domain", time_domain_values, false);
   ("representation_level", representation_level_values, false);
   ("turbine_representation", turbine_representation_values, true);
   ("location", location_values, true)].

(** A [Literal] field given a value that is not one of its allowed strings
    (and, for the two nullable ones, not null) fails with a [literal_error]
    at that field listing the allowed values; whatever the type of the
    value, the error is a [literal_error], never a type error. *)
Theorem literal_fields_reject (raw : dict) k vals (nullable : bool) v :
  In (k, vals, nullable) literal_fields -> lookup k raw = Some v ->
  (forall s, v = VStr s -> ~ In s vals) -> (nullable = true -> v <> VNone) ->
  exists es, model_validate raw = Err es /\ In (mkerr [LKey k] (LiteralError vals)) es.
Proof.
  intros Hk Hl Hs Hn.
  cbn [literal_fields In] in Hk;
    repeat destruct Hk as [Hk|Hk]; try contradiction; injection Hk as <- <- <-;
    apply doc_field_error; eexists; (split; [pick_field|]).
  all: first
    [ exact (field_default_error_in _ _ _ _ v _ Hl (v_literal_reject _ _ Hs))
    | exact (field_error_in _ _ _ v _ Hl (v_literal_reject _ _ Hs))
    | apply (field_error_in _ _ _ v _ Hl);
      assert (Hv : v <> VNone) by (apply Hn; reflexivity);
      destruct v; [contradiction|..]; cbn [v_nullable];
      rewrite (v_literal_reject _ _ Hs); reflexivity ].
Qed.

Lemma literal_fields_reject_witness :
  exists es, model_validate (set_key "location" (VStr "nearshore") Samples.raw_doc) = Err es
    /\ In (mkerr [LKey "location"] (LiteralError location_values)) es.
Proof.
  apply (literal_fields_reject (set_key "location" (VStr "nearshore") Samples.raw_doc)
           "location" location_values true (VStr "nearshore")).
  - cbn; tauto.
  - vm_compute; reflexivity.
  - intros s E; injection E as <-; cbn; intuition discriminate.
  - discriminate.
Defined.

(** The plain [str] fields of the schema. *)
Definition str_fields : list string :=
  ["id"; "name"; "description"; "latest_release_version"; "license";
   "repository_url"; "documentation_url"; "function";
   "input_description"; "output_description"].

(** A plain [str] field given anything but a string (a number, a boolean,
    null, a list, a dict) fails with a [string_type] error at that field:
    nothing is coerced to a string. *)
Theorem str_fields_reject (raw : dict) k v :
  In k str_fields -> lookup k raw = Some v -> (forall s, v <> VStr s) ->
  exists es, model_validate raw = Err es /\ In (mkerr [LKey k] StringType) es.
Proof.
  intros Hk Hl Hs.
  assert (Hf : v_str v = fail StringType)
    by (destruct v; try reflexivity; exfalso; exact (Hs s eq_refl)).
  cbn [str_fields In] in Hk; repeat destruct Hk as [Hk|Hk]; try contradiction; subst k;
    apply doc_field_error; eexists; (split; [pick_field|]);
    exact (field_error_in _ _ _ v _ Hl Hf).
Qed.

Lemma str_fields_reject_witness :
  exists es, model_validate (set_key "latest_release_version" (VInt 2%Z) Samples.raw_doc) = Err es
    /\ In (mkerr [LKey "latest_release_version"] StringType) es.
Proof.
  apply (str_fields_reject (set_key "latest_release_version" (VInt 2%Z) Samples.raw_doc)
           "latest_release_version" (VInt 2%Z)).
  - cbn; tauto.
  - vm_compute; reflexivity.
  - discriminate.
Defined.

(** ** Timestamps in seconds and in milliseconds *)

(** An integer date is read as seconds up to 2e10 and as milliseconds
    above: the same instant given in seconds (between 2e7 and 2e10 in
    magnitude) and in milliseconds validates to the same date, or fails with
    the same error. *)
Theorem timestamp_units_agree (n : Z) :
  (20000000 < Z.abs n <= 20000000000)%Z ->
  v_date (VInt (n * 1000)) = v_date (VInt n).
Proof.
  intro Hn; cbn [v_date]; unfold datetime_from_timestamp, timestamp_watershed.
  replace (Z.abs (n * 1000) <=? 20000000000)%Z with false
    by (symmetry; apply Z.leb_gt; rewrite Z.abs_mul; lia).
  replace (Z.abs n <=? 20000000000)%Z with true by (symmetry; apply Z.leb_le; lia).
  rewrite Z.div_mul, Z.mod_mul by lia.
  reflexivity.
Qed.

Lemma timestamp_units_agree_witness :
  (20000000 < Z.abs 1709164800 <= 20000000000)%Z
  /\ v_date (VInt (1709164800 * 1000)) = v_date (VInt 1709164800).
Proof. split; [lia | apply timestamp_units_agree; lia]. Defined.

End Extra.
